(** * wagtail_vector_index.ai_utils.backends.base

    A shallow embedding of [src/wagtail_vector_index/ai_utils/backends/base.py]:
    the resolution of backend configurations from a settings dictionary
    ([BaseConfig.from_settings], [BaseEmbeddingConfig.from_settings] and the
    three field resolvers) and the construction of the text splitter
    ([BaseBackend.get_text_splitter]).

    Python values are a small universe [pyval]; a settings dictionary is a
    [gmap string pyval]; a call that may raise returns a [result]. *)

From Stdlib Require Import ZArith String Ascii Lia.
From Stdlib Require Import Floats.SpecFloat.
From stdpp Require Import base option gmap strings.

Local Open Scope Z_scope.

(** ** Python values *)

(** The values a settings dictionary can hold.  Floats are IEEE values in
    the sign/mantissa/exponent form of [spec_float]:
    [S754_finite s m e] is [(-1)^s * m * 2^e]. *)
#[warnings="-register-all"]
Inductive pyval : Type :=
  | PyNone
  | PyBool (b : bool)
  | PyInt (z : Z)
  | PyFloat (f : spec_float)
  | PyStr (s : string)
  | PyList (items : list pyval).

(** [x is None] *)
Definition is_None (v : pyval) : bool :=
  match v with PyNone => true | _ => false end.

(** The double quote character, and a string in double quotes. *)
Definition dquote : string := String "034"%char EmptyString.
Definition quoted (s : string) : string := dquote +:+ s +:+ dquote.

(** [str(type(v))], as an f-string renders [{type(v)}]. *)
Definition type_name (v : pyval) : string :=
  match v with
  | PyNone => "NoneType"
  | PyBool _ => "bool"
  | PyInt _ => "int"
  | PyFloat _ => "float"
  | PyStr _ => "str"
  | PyList _ => "list"
  end.

Definition type_repr (v : pyval) : string :=
  "<class '" +:+ type_name v +:+ "'>".

(** ** Exceptions and results *)

(** The exception classes the module raises, catches or lets through.
    [ImproperlyConfigured msg cause] is
    [raise ImproperlyConfigured(msg) from cause]. *)
Inductive exception : Type :=
  | ImproperlyConfigured (msg : string) (cause : exception)
  | ValueError
  | TypeError
  | OverflowError
  | KeyError (key : string)
  | NoTokenLimitFound
  | EmbeddingOutputDimensionsNotFound.

Inductive result (A : Type) : Type :=
  | Return (a : A)
  | Raise (e : exception).
Arguments Return {A} a.
Arguments Raise {A} e.

#[global] Instance result_ret : MRet result := @Return.
#[global] Instance result_bind : MBind result := fun A B k r =>
  match r with
  | Return a => k a
  | Raise e => Raise e
  end.

(** ** The builtin [int] *)

Module Builtins.

(** ASCII white space, the characters [int] skips around a numeral. *)
Definition is_space (c : ascii) : bool :=
  let n := nat_of_ascii c in
  ((9 <=? n)%nat && (n <=? 13)%nat) || (n =? 32)%nat.

Definition digit_value (c : ascii) : option Z :=
  let n := nat_of_ascii c in
  if ((48 <=? n)%nat && (n <=? 57)%nat)%bool
  then Some (Z.of_nat n - 48) else None.

Definition is_underscore (c : ascii) : bool := (nat_of_ascii c =? 95)%nat.

Fixpoint skip_space (s : string) : string :=
  match s with
  | String c s' => if is_space c then skip_space s' else s
  | EmptyString => s
  end.

(** Scan decimal digits, single underscores allowed between two digits.
    [prev] tells that the previous character was an underscore.  The
    result is the value, the number of digits and the rest of the text;
    [None] for a doubled or trailing underscore. *)
Fixpoint scan_digits (s : string) (prev : bool) (acc : Z) (digits : N)
  : option (Z * N * string) :=
  match s with
  | String c s' =>
      if is_underscore c then
        if prev then None else scan_digits s' true acc digits
      else
        match digit_value c with
        | Some d => scan_digits s' false (10 * acc + d) (digits + 1)%N
        | None => if prev then None else Some (acc, digits, s)
        end
  | EmptyString => if prev then None else Some (acc, digits, s)
  end.

(** [sys.get_int_max_str_digits()], at its default. *)
Definition int_max_str_digits : N := 4300.

(** [int(s)] for a [str] of ASCII characters: white space, an optional
    sign, the digits, white space.  Anything else is a [ValueError]. *)
Definition int_of_str (s : string) : result Z :=
  let s1 := skip_space s in
  let '(negative, s2) :=
    match s1 with
    | String "+"%char r => (false, r)
    | String "-"%char r => (true, r)
    | _ => (false, s1)
    end in
  match s2 with
  | String "_"%char _ => Raise ValueError
  | _ =>
      match scan_digits s2 false 0 0%N with
      | None => Raise ValueError
      | Some (v, digits, rest) =>
          if (digits =? 0)%N then Raise ValueError
          else if (int_max_str_digits <? digits)%N then Raise ValueError
          else
            match skip_space rest with
            | EmptyString => Return (if negative then - v else v)
            | String _ _ => Raise ValueError
            end
      end
  end.

(** [int(f)] for a [float]: the integer part, rounding toward zero;
    [ValueError] for a NaN and [OverflowError] for an infinity. *)
Definition int_of_float (f : spec_float) : result Z :=
  match f with
  | S754_zero _ => Return 0
  | S754_infinity _ => Raise OverflowError
  | S754_nan => Raise ValueError
  | S754_finite s m e =>
      let magnitude := Z.shiftl (Z.pos m) e in
      Return (if s then - magnitude else magnitude)
  end.

(** [int(v)] *)
Definition int (v : pyval) : result Z :=
  match v with
  | PyInt z => Return z
  | PyBool b => Return (if b then 1 else 0)
  | PyFloat f => int_of_float f
  | PyStr s => int_of_str s
  | PyNone => Raise TypeError
  | PyList _ => Raise TypeError
  end.

End Builtins.

(** The value of a finite float [(-1)^s * m * 2^e] as a fraction of two
    integers. *)
Definition float_numerator (s : bool) (m : positive) (e : Z) : Z :=
  (if s then - Z.pos m else Z.pos m) * 2 ^ Z.max e 0.

Definition float_denominator (e : Z) : Z := 2 ^ Z.max (- e) 0.

(** ** Dictionaries *)

(** [config[key]]: a [KeyError] when the key is absent. *)
Definition subscript (config : gmap string pyval) (key : string)
  : result pyval :=
  match config !! key with
  | Some v => Return v
  | None => Raise (KeyError key)
  end.

(** [config.get(key)]: [None] when the key is absent. *)
Definition dict_get (config : gmap string pyval) (key : string) : pyval :=
  default PyNone (config !! key).

(** [kwargs.setdefault(key, value)], as the dictionary it leaves behind. *)
Definition setdefault (kwargs : gmap string pyval) (key : string)
  (value : pyval) : gmap string pyval :=
  match kwargs !! key with
  | Some _ => kwargs
  | None => <[key := value]> kwargs
  end.

(** [needle in text] on strings. *)
Fixpoint contains (needle text : string) : bool :=
  String.prefix needle text ||
  match text with
  | String _ rest => contains needle rest
  | EmptyString => false
  end.

(** ** The collaborators the module imports *)

(** The module [tokens]: the token-limit lookup by model id, which either
    returns the limit or raises (a model without a registered limit raises
    [NoTokenLimitFound]), and the chunk-overlap default provider, which
    takes no argument. *)
Class Tokens := {
  get_default_token_limit : pyval -> result Z;
  get_default_chunk_overlap : result Z
}.

(** The module [embeddings]: the embedding-dimension lookup by model id; a
    model without a registered dimension raises
    [EmbeddingOutputDimensionsNotFound]. *)
Class Embeddings := {
  get_default_embedding_output_dimensions : pyval -> result Z
}.

(** [str(v)] for a value that is not a [str], as an f-string renders it. *)
Class Str := str_of_object : pyval -> string.

(** [f"{v}"] *)
Definition format_value {str : Str} (v : pyval) : string :=
  match v with
  | PyStr s => s
  | _ => str_of_object v
  end.

(** [TextSplitterLengthCalculatorProtocol]: what a length calculator
    offers. *)
Class TextSplitterLengthCalculatorProtocol (L : Type) :=
  get_splitter_length : L -> string -> Z.

(** A class object of type [type[TextSplitterProtocol]], called as
    [cls(chunk_size=..., chunk_overlap=..., length_function=...)]. *)
Definition text_splitter_type (S : Type) : Type :=
  Z -> Z -> (string -> Z) -> S.

(** A class object of type [type[TextSplitterLengthCalculatorProtocol]],
    called without arguments. *)
Definition length_calculator_type (L : Type) : Type := unit -> L.

(** ** Error messages *)

Definition not_an_int (field : string) (custom_value : pyval) : string :=
  quoted field +:+ " is not an " +:+ quoted "int" +:+ ", it is a "
  +:+ quoted (type_repr custom_value) +:+ ".".

Definition not_configured {str : Str} (field : string) (model_id : pyval)
  : string :=
  quoted field +:+ " is not configured for model "
  +:+ quoted (format_value model_id) +:+ ".".

(** ** [BaseConfig] *)

Module BaseConfig.

Record t (S L : Type) : Type := {
  chunk_overlap_characters : Z;
  model_id : pyval;
  text_splitter_class : text_splitter_type S;
  text_splitter_length_calculator_class : length_calculator_type L;
  token_limit : Z
}.
Arguments chunk_overlap_characters {S L} _.
Arguments model_id {S L} _.
Arguments text_splitter_class {S L} _.
Arguments text_splitter_length_calculator_class {S L} _.
Arguments token_limit {S L} _.

(** A configuration class [cls], as its keyword-only constructor
    [cls(chunk_overlap_characters=..., model_id=..., text_splitter_class=...,
    text_splitter_length_calculator_class=..., token_limit=..., **kwargs)]. *)
Definition class (S L C : Type) : Type :=
  Z -> pyval -> text_splitter_type S -> length_calculator_type L -> Z ->
  gmap string pyval -> result C.

(** The constructor the dataclass [BaseConfig] generates.  It has the five
    fields and no other: any further keyword is a [TypeError]. *)
Definition new {S L : Type} : class S L (t S L) :=
  fun chunk_overlap_characters model_id text_splitter_class
      text_splitter_length_calculator_class token_limit kwargs =>
  if bool_decide (dom kwargs = ∅) then
    Return {| chunk_overlap_characters := chunk_overlap_characters;
              model_id := model_id;
              text_splitter_class := text_splitter_class;
              text_splitter_length_calculator_class :=
                text_splitter_length_calculator_class;
              token_limit := token_limit |}
  else Raise TypeError.

Definition get_token_limit {tokens : Tokens} {str : Str}
  (model_id custom_value : pyval)
  : result Z :=
  if negb (is_None custom_value) then
    match Builtins.int custom_value with
    | Raise ValueError =>
        Raise (ImproperlyConfigured
                 (not_an_int "TOKEN_LIMIT" custom_value) ValueError)
    | r => r
    end
  else
    match get_default_token_limit model_id with
    | Raise NoTokenLimitFound =>
        Raise (ImproperlyConfigured
                 (not_configured "TOKEN_LIMIT" model_id) NoTokenLimitFound)
    | r => r
    end.

Definition get_chunk_overlap {tokens : Tokens}
  (model_id custom_value : pyval)
  : result Z :=
  if negb (is_None custom_value) then
    match Builtins.int custom_value with
    | Raise ValueError =>
        Raise (ImproperlyConfigured
                 (not_an_int "CHUNK_OVERLAP_CHARACTERS" custom_value)
                 ValueError)
    | r => r
    end
  else get_default_chunk_overlap.

Definition from_settings {tokens : Tokens} {str : Str} {S L C : Type}
  (cls : class S L C)
  (config : gmap string pyval)
  (text_splitter_class : text_splitter_type S)
  (text_splitter_length_calculator_class : length_calculator_type L)
  (kwargs : gmap string pyval) : result C :=
  token_limit ←
    (model_id ← subscript config "MODEL_ID";
     get_token_limit model_id (dict_get config "TOKEN_LIMIT"));
  chunk_overlap_characters ←
    (model_id ← subscript config "MODEL_ID";
     get_chunk_overlap model_id (dict_get config "CHUNK_OVERLAP_CHARACTERS"));
  model_id ← subscript config "MODEL_ID";
  cls chunk_overlap_characters model_id text_splitter_class
      text_splitter_length_calculator_class token_limit kwargs.

End BaseConfig.

(** ** [BaseChatConfig]: [BaseConfig] with nothing added *)

Module BaseChatConfig.

Definition t := BaseConfig.t.
Definition new {S L : Type} : BaseConfig.class S L (t S L) := BaseConfig.new.

End BaseChatConfig.

(** ** [BaseEmbeddingConfig] *)

Module BaseEmbeddingConfig.

(** The fields of [BaseConfig] and [embedding_output_dimensions].  The
    dataclass does not check the annotation [int]: the field holds what the
    constructor is given. *)
Record t (S L : Type) : Type := {
  base : BaseConfig.t S L;
  embedding_output_dimensions : pyval
}.
Arguments base {S L} _.
Arguments embedding_output_dimensions {S L} _.

(** The constructor the dataclass generates: the keyword
    [embedding_output_dimensions] is required, any other is a
    [TypeError]. *)
Definition new {S L : Type} : BaseConfig.class S L (t S L) :=
  fun chunk_overlap_characters model_id text_splitter_class
      text_splitter_length_calculator_class token_limit kwargs =>
  match kwargs !! "embedding_output_dimensions" with
  | Some embedding_output_dimensions =>
      if bool_decide (dom kwargs = {["embedding_output_dimensions"]}) then
        Return {| base :=
                    {| BaseConfig.chunk_overlap_characters :=
                         chunk_overlap_characters;
                       BaseConfig.model_id := model_id;
                       BaseConfig.text_splitter_class := text_splitter_class;
                       BaseConfig.text_splitter_length_calculator_class :=
                         text_splitter_length_calculator_class;
                       BaseConfig.token_limit := token_limit |};
                  embedding_output_dimensions :=
                    embedding_output_dimensions |}
      else Raise TypeError
  | None => Raise TypeError
  end.

Definition get_embedding_output_dimensions {embeddings : Embeddings}
  {str : Str}
  (model_id custom_value : pyval) : result Z :=
  if negb (is_None custom_value) then
    match Builtins.int custom_value with
    | Raise ValueError =>
        Raise (ImproperlyConfigured
                 (not_an_int "EMBEDDING_OUTPUT_DIMENSIONS" custom_value)
                 ValueError)
    | r => r
    end
  else
    match get_default_embedding_output_dimensions model_id with
    | Raise EmbeddingOutputDimensionsNotFound =>
        Raise (ImproperlyConfigured
                 (not_configured "EMBEDDING_OUTPUT_DIMENSIONS" model_id)
                 EmbeddingOutputDimensionsNotFound)
    | r => r
    end.

Definition from_settings {tokens : Tokens} {embeddings : Embeddings}
  {str : Str} {S L C : Type}
  (cls : BaseConfig.class S L C)
  (config : gmap string pyval)
  (text_splitter_class : text_splitter_type S)
  (text_splitter_length_calculator_class : length_calculator_type L)
  (kwargs : gmap string pyval) : result C :=
  embedding_output_dimensions ←
    (model_id ← subscript config "MODEL_ID";
     get_embedding_output_dimensions model_id
       (dict_get config "EMBEDDING_OUTPUT_DIMENSIONS"));
  let kwargs :=
    setdefault kwargs "embedding_output_dimensions"
      (PyInt embedding_output_dimensions) in
  BaseConfig.from_settings cls config text_splitter_class
    text_splitter_length_calculator_class kwargs.

End BaseEmbeddingConfig.

(** ** [BaseBackend] *)

(** [AnyBackendConfig], a type variable bound by [BaseConfig]: a
    configuration type with the fields of [BaseConfig]. *)
Class AnyBackendConfig (C S L : Type) := as_base : C -> BaseConfig.t S L.

#[global] Instance base_config_any {S L : Type}
  : AnyBackendConfig (BaseConfig.t S L) S L := fun c => c.
#[global] Instance embedding_config_any {S L : Type}
  : AnyBackendConfig (BaseEmbeddingConfig.t S L) S L :=
  BaseEmbeddingConfig.base.

Module BaseBackend.

(** A backend holds its configuration and nothing else. *)
Record t (C : Type) : Type := { config : C }.
Arguments config {C} _.

Definition get_splitter_length_calculator {C S L : Type}
  {any : AnyBackendConfig C S L} (self : t C) : L :=
  BaseConfig.text_splitter_length_calculator_class (as_base (config self)) tt.

Definition get_text_splitter {C S L : Type} {any : AnyBackendConfig C S L}
  {protocol : TextSplitterLengthCalculatorProtocol L} (self : t C) : S :=
  BaseConfig.text_splitter_class (as_base (config self))
    (BaseConfig.token_limit (as_base (config self)))
    (BaseConfig.chunk_overlap_characters (as_base (config self)))
    (get_splitter_length (get_splitter_length_calculator self)).

End BaseBackend.

Module BaseEmbeddingBackend.

Definition embedding_output_dimensions {S L : Type}
  (self : BaseBackend.t (BaseEmbeddingConfig.t S L)) : pyval :=
  BaseEmbeddingConfig.embedding_output_dimensions (BaseBackend.config self).

End BaseEmbeddingBackend.

(** ** A concrete setting, for the examples *)

Module Sample.

(** A lookup table keyed by model id. *)
Definition lookup (table : gmap string Z) (not_found : exception)
  (model_id : pyval) : result Z :=
  match model_id with
  | PyStr name =>
      match table !! name with
      | Some n => Return n
      | None => Raise not_found
      end
  | _ => Raise not_found
  end.

Definition token_limits : gmap string Z :=
  <["gpt-4" := 8192]> (<["text-embed-1" := 8191]> ∅).

Definition embedding_dimensions : gmap string Z :=
  <["text-embed-1" := 1536]> ∅.

Definition tokens : Tokens := {|
  get_default_token_limit := lookup token_limits NoTokenLimitFound;
  get_default_chunk_overlap := Return 80
|}.

Definition embeddings : Embeddings := {|
  get_default_embedding_output_dimensions :=
    lookup embedding_dimensions EmbeddingOutputDimensionsNotFound
|}.

(** Tables in which no model is registered. *)
Definition no_tokens : Tokens := {|
  get_default_token_limit := lookup ∅ NoTokenLimitFound;
  get_default_chunk_overlap := Return 80
|}.

Definition no_embeddings : Embeddings := {|
  get_default_embedding_output_dimensions :=
    lookup ∅ EmbeddingOutputDimensionsNotFound
|}.

(** [str] of the values that are no [str]; the examples do not depend on
    it. *)
Definition str : Str := type_repr.

(** A splitter that keeps what it was constructed with. *)
Record splitter : Type := {
  chunk_size : Z;
  chunk_overlap : Z;
  length_function : string -> Z
}.

Definition Splitter : text_splitter_type splitter := Build_splitter.

(** A length calculator that counts characters. *)
Inductive calculator : Type := CharacterCount.

Definition Calculator : length_calculator_type calculator :=
  fun _ => CharacterCount.

Definition calculator_protocol
  : TextSplitterLengthCalculatorProtocol calculator :=
  fun _ text => Z.of_nat (String.length text).

Definition gpt4_string_limit : gmap string pyval :=
  <["MODEL_ID" := PyStr "gpt-4"]> (<["TOKEN_LIMIT" := PyStr "8000"]> ∅).

Definition unknown_model : gmap string pyval :=
  <["MODEL_ID" := PyStr "unknown-model"]> ∅.

Definition embed_1536 : gmap string pyval :=
  <["MODEL_ID" := PyStr "text-embed-1"]>
    (<["EMBEDDING_OUTPUT_DIMENSIONS" := PyInt 1536]> ∅).

Definition gpt4 : gmap string pyval := <["MODEL_ID" := PyStr "gpt-4"]> ∅.

Definition gpt4_bad_limit : gmap string pyval :=
  <["MODEL_ID" := PyStr "gpt-4"]> (<["TOKEN_LIMIT" := PyStr "abc"]> ∅).

Definition gpt4_list_limit : gmap string pyval :=
  <["MODEL_ID" := PyStr "gpt-4"]> (<["TOKEN_LIMIT" := PyList []]> ∅).

(** 8.5 is [17 * 2^-1]. *)
Definition eight_and_a_half : spec_float := S754_finite false 17 (-1).

Definition gpt4_float_limit : gmap string pyval :=
  <["MODEL_ID" := PyStr "gpt-4"]>
    (<["TOKEN_LIMIT" := PyFloat eight_and_a_half]> ∅).

Definition unknown_model_with_limit : gmap string pyval :=
  <["MODEL_ID" := PyStr "unknown-model"]> (<["TOKEN_LIMIT" := PyInt 4096]> ∅).

End Sample.


(** ** The fields that are resolved from the settings *)

Inductive field : Type :=
  | TOKEN_LIMIT
  | CHUNK_OVERLAP_CHARACTERS
  | EMBEDDING_OUTPUT_DIMENSIONS.

(** The settings key of a field. *)
Definition key (f : field) : string :=
  match f with
  | TOKEN_LIMIT => "TOKEN_LIMIT"
  | CHUNK_OVERLAP_CHARACTERS => "CHUNK_OVERLAP_CHARACTERS"
  | EMBEDDING_OUTPUT_DIMENSIONS => "EMBEDDING_OUTPUT_DIMENSIONS"
  end.

(** The resolver of a field. *)
Definition resolve {tokens : Tokens} {embeddings : Embeddings} {str : Str}
  (f : field) : pyval -> pyval -> result Z :=
  match f with
  | TOKEN_LIMIT => BaseConfig.get_token_limit
  | CHUNK_OVERLAP_CHARACTERS => BaseConfig.get_chunk_overlap
  | EMBEDDING_OUTPUT_DIMENSIONS =>
      BaseEmbeddingConfig.get_embedding_output_dimensions
  end.

(** The external lookup a resolver falls back on. *)
Definition default_of {tokens : Tokens} {embeddings : Embeddings}
  (f : field) (model_id : pyval) : result Z :=
  match f with
  | TOKEN_LIMIT => get_default_token_limit model_id
  | CHUNK_OVERLAP_CHARACTERS => get_default_chunk_overlap
  | EMBEDDING_OUTPUT_DIMENSIONS =>
      get_default_embedding_output_dimensions model_id
  end.

(** The coercion step the three resolvers share: [int(custom_value)], a
    [ValueError] turned into a configuration error that names the field. *)
Definition coerce (f : field) (custom_value : pyval) : result Z :=
  match Builtins.int custom_value with
  | Raise ValueError =>
      Raise (ImproperlyConfigured (not_an_int (key f) custom_value)
               ValueError)
  | r => r
  end.

(** The order in which the fields are resolved: the embedding resolution
    starts with the output dimensions and hands over to the base
    resolution, which takes the token limit and then the chunk overlap. *)
Definition position (f : field) : nat :=
  match f with
  | EMBEDDING_OUTPUT_DIMENSIONS => 0
  | TOKEN_LIMIT => 1
  | CHUNK_OVERLAP_CHARACTERS => 2
  end.

Definition precedes (g f : field) : Prop := (position g < position f)%nat.

(** The field as a [BaseConfig] holds it; it has no
    [embedding_output_dimensions]. *)
Definition base_field {S L : Type} (f : field) (c : BaseConfig.t S L)
  : option pyval :=
  match f with
  | TOKEN_LIMIT => Some (PyInt (BaseConfig.token_limit c))
  | CHUNK_OVERLAP_CHARACTERS =>
      Some (PyInt (BaseConfig.chunk_overlap_characters c))
  | EMBEDDING_OUTPUT_DIMENSIONS => None
  end.

(** The field as a [BaseEmbeddingConfig] holds it. *)
Definition embedding_field {S L : Type} (f : field)
  (c : BaseEmbeddingConfig.t S L) : pyval :=
  match f with
  | EMBEDDING_OUTPUT_DIMENSIONS =>
      BaseEmbeddingConfig.embedding_output_dimensions c
  | _ => default PyNone (base_field f (BaseEmbeddingConfig.base c))
  end.

(** * Properties *)

(** ** The builtin [int] on examples *)

Example int_of_str_8000 : Builtins.int (PyStr "8000") = Return 8000.
Proof. reflexivity. Qed.

Example int_of_str_padded : Builtins.int (PyStr " -1_000 ") = Return (-1000).
Proof. reflexivity. Qed.

Example int_of_str_abc : Builtins.int (PyStr "abc") = Raise ValueError.
Proof. reflexivity. Qed.

Example int_of_str_empty : Builtins.int (PyStr EmptyString) = Raise ValueError.
Proof. reflexivity. Qed.

Example int_of_str_decimal : Builtins.int (PyStr "8.5") = Raise ValueError.
Proof. reflexivity. Qed.

Example int_of_str_underscores :
  Builtins.int (PyStr "1__0") = Raise ValueError.
Proof. reflexivity. Qed.

Example int_of_float_neg_8_5 :
  Builtins.int (PyFloat (S754_finite true 17 (-1))) = Return (-8).
Proof. reflexivity. Qed.

Example int_of_True : Builtins.int (PyBool true) = Return 1.
Proof. reflexivity. Qed.

(** ** Dictionaries and strings *)

Lemma dict_get_Some (config : gmap string pyval) k v :
  config !! k = Some v -> dict_get config k = v.
Proof. unfold dict_get. by intros ->. Qed.

Lemma dict_get_None (config : gmap string pyval) k :
  config !! k = None -> dict_get config k = PyNone.
Proof. unfold dict_get. by intros ->. Qed.

Lemma dict_get_insert_None (config : gmap string pyval) k :
  dict_get (<[k := PyNone]> config) k = dict_get (delete k config) k.
Proof. unfold dict_get. by rewrite lookup_insert_eq, lookup_delete_eq. Qed.

Lemma dict_get_insert_delete_ne (config : gmap string pyval) k k' v :
  k <> k' -> dict_get (<[k := v]> config) k' = dict_get (delete k config) k'.
Proof.
  intros Hne. unfold dict_get.
  by rewrite lookup_insert_ne, lookup_delete_ne.
Qed.

Lemma subscript_insert_delete_ne (config : gmap string pyval) k k' v :
  k <> k' -> subscript (<[k := v]> config) k' = subscript (delete k config) k'.
Proof.
  intros Hne. unfold subscript.
  by rewrite lookup_insert_ne, lookup_delete_ne.
Qed.

Lemma setdefault_absent (kwargs : gmap string pyval) k v :
  kwargs !! k = None -> setdefault kwargs k v = <[k := v]> kwargs.
Proof. unfold setdefault. by intros ->. Qed.

Lemma setdefault_present (kwargs : gmap string pyval) k v w :
  kwargs !! k = Some w -> setdefault kwargs k v = kwargs.
Proof. unfold setdefault. by intros ->. Qed.

Lemma append_nil (b : string) : EmptyString +:+ b = b.
Proof. reflexivity. Qed.

Lemma append_cons x (a b : string) : String x a +:+ b = String x (a +:+ b).
Proof. reflexivity. Qed.

Lemma append_assoc (a b c : string) : (a +:+ b) +:+ c = a +:+ (b +:+ c).
Proof.
  induction a as [|x a IH]; [done |].
  by rewrite !append_cons, IH.
Qed.

Lemma prefix_append (needle rest : string) :
  String.prefix needle (needle +:+ rest) = true.
Proof.
  induction needle as [|x needle IH].
  - rewrite append_nil. by destruct rest.
  - rewrite append_cons. simpl.
    destruct (ascii_dec x x); [exact IH | done].
Qed.

Lemma contains_prefix (needle rest : string) :
  contains needle (needle +:+ rest) = true.
Proof.
  pose proof (prefix_append needle rest) as Hp.
  destruct (needle +:+ rest); cbn [contains]; by rewrite Hp.
Qed.

Lemma contains_append (before needle rest : string) :
  contains needle (before +:+ needle +:+ rest) = true.
Proof.
  induction before as [|x before IH].
  - rewrite append_nil. apply contains_prefix.
  - rewrite append_cons. cbn [contains]. rewrite IH. apply orb_true_r.
Qed.

(** A string in quotes at the head of a message can be found in it. *)
Lemma contains_quoted_head (s rest : string) :
  contains s (quoted s +:+ rest) = true.
Proof.
  unfold quoted. rewrite !append_assoc. apply contains_append.
Qed.

Lemma contains_quoted (before s rest : string) :
  contains s (before +:+ quoted s +:+ rest) = true.
Proof.
  unfold quoted. rewrite !append_assoc, <- (append_assoc before).
  apply contains_append.
Qed.

(** ** The resolvers *)

Section Resolvers.
Context {tokens : Tokens} {embeddings : Embeddings} {str : Str}.

Lemma int_Return_not_None v n :
  Builtins.int v = Return n -> is_None v = false.
Proof. by destruct v. Qed.

(** With a custom value the three resolvers are the coercion step. *)
Lemma resolve_present f model_id v :
  is_None v = false -> resolve f model_id v = coerce f v.
Proof.
  intros Hv. destruct f; simpl;
    unfold BaseConfig.get_token_limit, BaseConfig.get_chunk_overlap,
      BaseEmbeddingConfig.get_embedding_output_dimensions, coerce;
    by rewrite Hv.
Qed.

Lemma coerce_Return f v n : Builtins.int v = Return n -> coerce f v = Return n.
Proof. unfold coerce. by intros ->. Qed.

Lemma coerce_ValueError f v :
  Builtins.int v = Raise ValueError ->
  coerce f v = Raise (ImproperlyConfigured (not_an_int (key f) v) ValueError).
Proof. unfold coerce. by intros ->. Qed.

Lemma coerce_TypeError f v :
  Builtins.int v = Raise TypeError -> coerce f v = Raise TypeError.
Proof. unfold coerce. by intros ->. Qed.

Lemma resolve_override f model_id v n :
  Builtins.int v = Return n -> resolve f model_id v = Return n.
Proof.
  intros Hn. rewrite resolve_present by eauto using int_Return_not_None.
  by apply coerce_Return.
Qed.

(** Without a custom value a registered default is the result. *)
Lemma resolve_default f model_id d :
  default_of f model_id = Return d -> resolve f model_id PyNone = Return d.
Proof.
  destruct f; simpl;
    unfold BaseConfig.get_token_limit, BaseConfig.get_chunk_overlap,
      BaseEmbeddingConfig.get_embedding_output_dimensions; simpl;
    by intros ->.
Qed.

Lemma token_limit_not_found model_id :
  get_default_token_limit model_id = Raise NoTokenLimitFound ->
  resolve TOKEN_LIMIT model_id PyNone =
    Raise (ImproperlyConfigured (not_configured "TOKEN_LIMIT" model_id)
             NoTokenLimitFound).
Proof. simpl. unfold BaseConfig.get_token_limit. simpl. by intros ->. Qed.

Lemma embedding_output_dimensions_not_found model_id :
  get_default_embedding_output_dimensions model_id =
    Raise EmbeddingOutputDimensionsNotFound ->
  resolve EMBEDDING_OUTPUT_DIMENSIONS model_id PyNone =
    Raise (ImproperlyConfigured
             (not_configured "EMBEDDING_OUTPUT_DIMENSIONS" model_id)
             EmbeddingOutputDimensionsNotFound).
Proof.
  simpl. unfold BaseEmbeddingConfig.get_embedding_output_dimensions. simpl.
  by intros ->.
Qed.

(** The chunk overlap of a model without a custom value is what the
    provider gives, whatever the model. *)
Lemma chunk_overlap_default model_id :
  resolve CHUNK_OVERLAP_CHARACTERS model_id PyNone =
    get_default_chunk_overlap.
Proof. reflexivity. Qed.

(** The messages name what they are about. *)
Lemma not_an_int_names_field f v : contains (key f) (not_an_int (key f) v) = true.
Proof. apply contains_quoted_head. Qed.

Lemma not_configured_names_field f model_id :
  contains (key f) (not_configured (key f) model_id) = true.
Proof. apply contains_quoted_head. Qed.

Lemma not_configured_names_model f name :
  contains name (not_configured (key f) (PyStr name)) = true.
Proof.
  unfold not_configured, format_value.
  rewrite <- (append_assoc (quoted (key f))). apply contains_quoted.
Qed.

(** ** [from_settings] *)

Section FromSettings.
Context {S L C : Type} (cls : BaseConfig.class S L C).
Context (config : gmap string pyval).
Context (text_splitter_class : text_splitter_type S).
Context (text_splitter_length_calculator_class : length_calculator_type L).

(** The base resolution: the token limit, then the chunk overlap, then the
    constructor. *)
Lemma base_from_settings_eq kwargs model_id :
  config !! "MODEL_ID" = Some model_id ->
  BaseConfig.from_settings cls config text_splitter_class
    text_splitter_length_calculator_class kwargs =
  (token_limit ←
     resolve TOKEN_LIMIT model_id (dict_get config (key TOKEN_LIMIT));
   chunk_overlap_characters ←
     resolve CHUNK_OVERLAP_CHARACTERS model_id
       (dict_get config (key CHUNK_OVERLAP_CHARACTERS));
   cls chunk_overlap_characters model_id text_splitter_class
     text_splitter_length_calculator_class token_limit kwargs).
Proof.
  intros Hm. unfold BaseConfig.from_settings, subscript. rewrite Hm. simpl.
  reflexivity.
Qed.

Lemma base_from_settings_KeyError kwargs :
  config !! "MODEL_ID" = None ->
  BaseConfig.from_settings cls config text_splitter_class
    text_splitter_length_calculator_class kwargs = Raise (KeyError "MODEL_ID").
Proof.
  intros Hm. unfold BaseConfig.from_settings, subscript. by rewrite Hm.
Qed.

(** The embedding resolution: the output dimensions, then the base
    resolution with the dimensions among the keywords. *)
Lemma embedding_from_settings_eq kwargs model_id :
  config !! "MODEL_ID" = Some model_id ->
  BaseEmbeddingConfig.from_settings cls config text_splitter_class
    text_splitter_length_calculator_class kwargs =
  (embedding_output_dimensions ←
     resolve EMBEDDING_OUTPUT_DIMENSIONS model_id
       (dict_get config (key EMBEDDING_OUTPUT_DIMENSIONS));
   BaseConfig.from_settings cls config text_splitter_class
     text_splitter_length_calculator_class
     (setdefault kwargs "embedding_output_dimensions"
        (PyInt embedding_output_dimensions))).
Proof.
  intros Hm. unfold BaseEmbeddingConfig.from_settings, subscript.
  rewrite Hm. reflexivity.
Qed.

Lemma embedding_from_settings_KeyError kwargs :
  config !! "MODEL_ID" = None ->
  BaseEmbeddingConfig.from_settings cls config text_splitter_class
    text_splitter_length_calculator_class kwargs = Raise (KeyError "MODEL_ID").
Proof.
  intros Hm. unfold BaseEmbeddingConfig.from_settings, subscript.
  by rewrite Hm.
Qed.

(** What a returned configuration tells about the steps before it. *)
Lemma base_from_settings_Return kwargs c :
  BaseConfig.from_settings cls config text_splitter_class
    text_splitter_length_calculator_class kwargs = Return c ->
  exists model_id token_limit chunk_overlap_characters,
    config !! "MODEL_ID" = Some model_id /\
    resolve TOKEN_LIMIT model_id (dict_get config (key TOKEN_LIMIT)) =
      Return token_limit /\
    resolve CHUNK_OVERLAP_CHARACTERS model_id
      (dict_get config (key CHUNK_OVERLAP_CHARACTERS)) =
      Return chunk_overlap_characters /\
    cls chunk_overlap_characters model_id text_splitter_class
      text_splitter_length_calculator_class token_limit kwargs = Return c.
Proof.
  destruct (config !! "MODEL_ID") as [model_id|] eqn:Hm.
  - rewrite (base_from_settings_eq _ model_id Hm).
    destruct (resolve TOKEN_LIMIT _ _) as [tl|] eqn:Htl; [|done].
    destruct (resolve CHUNK_OVERLAP_CHARACTERS _ _) as [co|] eqn:Hco; [|done].
    simpl. intros Hc. by exists model_id, tl, co.
  - by rewrite base_from_settings_KeyError.
Qed.

Lemma embedding_from_settings_Return kwargs c :
  BaseEmbeddingConfig.from_settings cls config text_splitter_class
    text_splitter_length_calculator_class kwargs = Return c ->
  exists model_id dimensions token_limit chunk_overlap_characters,
    config !! "MODEL_ID" = Some model_id /\
    resolve EMBEDDING_OUTPUT_DIMENSIONS model_id
      (dict_get config (key EMBEDDING_OUTPUT_DIMENSIONS)) =
      Return dimensions /\
    resolve TOKEN_LIMIT model_id (dict_get config (key TOKEN_LIMIT)) =
      Return token_limit /\
    resolve CHUNK_OVERLAP_CHARACTERS model_id
      (dict_get config (key CHUNK_OVERLAP_CHARACTERS)) =
      Return chunk_overlap_characters /\
    cls chunk_overlap_characters model_id text_splitter_class
      text_splitter_length_calculator_class token_limit
      (setdefault kwargs "embedding_output_dimensions" (PyInt dimensions)) =
      Return c.
Proof.
  destruct (config !! "MODEL_ID") as [model_id|] eqn:Hm.
  - rewrite (embedding_from_settings_eq _ model_id Hm).
    destruct (resolve EMBEDDING_OUTPUT_DIMENSIONS _ _) as [d|] eqn:Hd; [|done].
    simpl. intros Hc.
    apply base_from_settings_Return in Hc
      as (m & tl & co & Hm' & Htl & Hco & Hc).
    rewrite Hm in Hm'. injection Hm' as <-.
    by exists model_id, d, tl, co.
  - by rewrite embedding_from_settings_KeyError.
Qed.

End FromSettings.

(** ** The constructors *)

Lemma new_Return {S L : Type} chunk_overlap_characters model_id
  (text_splitter_class : text_splitter_type S)
  (text_splitter_length_calculator_class : length_calculator_type L)
  token_limit kwargs c :
  BaseConfig.new chunk_overlap_characters model_id text_splitter_class
    text_splitter_length_calculator_class token_limit kwargs = Return c ->
  c = BaseConfig.Build_t S L chunk_overlap_characters model_id
        text_splitter_class text_splitter_length_calculator_class token_limit.
Proof.
  unfold BaseConfig.new. case_bool_decide; [|done]. by intros [= <-].
Qed.

Lemma embedding_new_Return {S L : Type} chunk_overlap_characters model_id
  (text_splitter_class : text_splitter_type S)
  (text_splitter_length_calculator_class : length_calculator_type L)
  token_limit kwargs c :
  BaseEmbeddingConfig.new chunk_overlap_characters model_id
    text_splitter_class text_splitter_length_calculator_class token_limit
    kwargs = Return c ->
  BaseEmbeddingConfig.base c =
    BaseConfig.Build_t S L chunk_overlap_characters model_id
      text_splitter_class text_splitter_length_calculator_class token_limit /\
  kwargs !! "embedding_output_dimensions" =
    Some (BaseEmbeddingConfig.embedding_output_dimensions c).
Proof.
  unfold BaseEmbeddingConfig.new.
  destruct (kwargs !! "embedding_output_dimensions") as [d|]; [|done].
  case_bool_decide; [|done]. by intros [= <-].
Qed.

(** [BaseChatConfig] resolves as [BaseConfig] does. *)
Lemma chat_from_settings {S L : Type} (config : gmap string pyval)
  (text_splitter_class : text_splitter_type S)
  (text_splitter_length_calculator_class : length_calculator_type L) kwargs :
  BaseConfig.from_settings BaseChatConfig.new config text_splitter_class
    text_splitter_length_calculator_class kwargs =
  BaseConfig.from_settings BaseConfig.new config text_splitter_class
    text_splitter_length_calculator_class kwargs.
Proof. reflexivity. Qed.

End Resolvers.

(** ** The fields of a returned configuration *)

Section Fields.
Context {tokens : Tokens} {embeddings : Embeddings} {str : Str}.
Context {S L : Type}.
Context (config : gmap string pyval).
Context (text_splitter_class : text_splitter_type S).
Context (text_splitter_length_calculator_class : length_calculator_type L).
Context (kwargs : gmap string pyval).

(** Every field of a [BaseConfig] that [from_settings] returns is what its
    resolver returned. *)
Lemma base_config_fields c :
  BaseConfig.from_settings BaseConfig.new config text_splitter_class
    text_splitter_length_calculator_class kwargs = Return c ->
  exists model_id,
    config !! "MODEL_ID" = Some model_id /\
    forall f, f <> EMBEDDING_OUTPUT_DIMENSIONS ->
      exists n,
        resolve f model_id (dict_get config (key f)) = Return n /\
        base_field f c = Some (PyInt n).
Proof.
  intros Hc.
  apply base_from_settings_Return in Hc as (m & tl & co & Hm & Htl & Hco & Hc).
  apply new_Return in Hc as ->.
  exists m. split; [exact Hm |].
  intros [] Hf; [by exists tl | by exists co | done].
Qed.

(** The same for a [BaseEmbeddingConfig], when the caller passes no
    [embedding_output_dimensions] keyword of its own. *)
Lemma embedding_config_fields c :
  kwargs !! "embedding_output_dimensions" = None ->
  BaseEmbeddingConfig.from_settings BaseEmbeddingConfig.new config
    text_splitter_class text_splitter_length_calculator_class kwargs =
    Return c ->
  exists model_id,
    config !! "MODEL_ID" = Some model_id /\
    forall f, exists n,
      resolve f model_id (dict_get config (key f)) = Return n /\
      embedding_field f c = PyInt n.
Proof.
  intros Hk Hc.
  apply embedding_from_settings_Return in Hc
    as (m & d & tl & co & Hm & Hd & Htl & Hco & Hc).
  apply embedding_new_Return in Hc as [Hbase Hdim].
  rewrite (setdefault_absent _ _ _ Hk), lookup_insert_eq in Hdim.
  injection Hdim as Hdim.
  exists m. split; [exact Hm |].
  intros []; [exists tl | exists co | exists d];
    unfold embedding_field; by rewrite ?Hbase, <- ?Hdim.
Qed.

(** A keyword [embedding_output_dimensions] of the caller is kept by
    [setdefault] and ends up in the configuration. *)
Lemma embedding_config_keyword c v :
  kwargs !! "embedding_output_dimensions" = Some v ->
  BaseEmbeddingConfig.from_settings BaseEmbeddingConfig.new config
    text_splitter_class text_splitter_length_calculator_class kwargs =
    Return c ->
  BaseEmbeddingConfig.embedding_output_dimensions c = v.
Proof.
  intros Hk Hc.
  apply embedding_from_settings_Return in Hc
    as (m & d & tl & co & Hm & Hd & Htl & Hco & Hc).
  apply embedding_new_Return in Hc as [Hbase Hdim].
  rewrite (setdefault_present _ _ _ _ Hk), Hk in Hdim. by injection Hdim.
Qed.

(** With every field resolved and no keyword of the caller, the
    configuration is returned. *)
Lemma base_from_settings_resolved model_id token_limit
  chunk_overlap_characters :
  config !! "MODEL_ID" = Some model_id ->
  resolve TOKEN_LIMIT model_id (dict_get config (key TOKEN_LIMIT)) =
    Return token_limit ->
  resolve CHUNK_OVERLAP_CHARACTERS model_id
    (dict_get config (key CHUNK_OVERLAP_CHARACTERS)) =
    Return chunk_overlap_characters ->
  BaseConfig.from_settings BaseConfig.new config text_splitter_class
    text_splitter_length_calculator_class ∅ =
    Return (BaseConfig.Build_t S L chunk_overlap_characters model_id
              text_splitter_class text_splitter_length_calculator_class
              token_limit).
Proof.
  intros Hm Htl Hco.
  by rewrite (base_from_settings_eq _ _ _ _ _ _ Hm), Htl, Hco.
Qed.

Lemma embedding_from_settings_resolved model_id dimensions token_limit
  chunk_overlap_characters :
  config !! "MODEL_ID" = Some model_id ->
  resolve EMBEDDING_OUTPUT_DIMENSIONS model_id
    (dict_get config (key EMBEDDING_OUTPUT_DIMENSIONS)) =
    Return dimensions ->
  resolve TOKEN_LIMIT model_id (dict_get config (key TOKEN_LIMIT)) =
    Return token_limit ->
  resolve CHUNK_OVERLAP_CHARACTERS model_id
    (dict_get config (key CHUNK_OVERLAP_CHARACTERS)) =
    Return chunk_overlap_characters ->
  BaseEmbeddingConfig.from_settings BaseEmbeddingConfig.new config
    text_splitter_class text_splitter_length_calculator_class ∅ =
    Return (BaseEmbeddingConfig.Build_t S L
              (BaseConfig.Build_t S L chunk_overlap_characters model_id
                 text_splitter_class text_splitter_length_calculator_class
                 token_limit)
              (PyInt dimensions)).
Proof.
  intros Hm Hd Htl Hco.
  rewrite (embedding_from_settings_eq _ _ _ _ _ _ Hm), Hd.
  cbn [mbind result_bind].
  by rewrite (base_from_settings_eq _ _ _ _ _ _ Hm), Htl, Hco.
Qed.

End Fields.

Lemma field_eq_dec (f g : field) : {f = g} + {f <> g}.
Proof. decide equality. Qed.

(** ** Overrides and defaults *)

(** C1. A present override that [int] coerces to [n] is the resolved field:
    the resolver returns [n] for every model id, whatever the lookups of
    [tokens] and [embeddings] hold, and every configuration that
    [from_settings] returns has [n] in that field, for [BaseConfig] (and
    [BaseChatConfig], which adds nothing to it) and for
    [BaseEmbeddingConfig], called without an [embedding_output_dimensions]
    keyword of the caller's own. *)
Theorem override_is_resolved {tokens : Tokens} {embeddings : Embeddings}
  {str : Str} {S L : Type} (config : gmap string pyval)
  (text_splitter_class : text_splitter_type S)
  (text_splitter_length_calculator_class : length_calculator_type L)
  (kwargs : gmap string pyval) (f : field) (v : pyval) (n : Z) :
  config !! key f = Some v ->
  Builtins.int v = Return n ->
  (forall model_id, resolve f model_id v = Return n) /\
  (forall c,
     f <> EMBEDDING_OUTPUT_DIMENSIONS ->
     BaseConfig.from_settings BaseConfig.new config text_splitter_class
       text_splitter_length_calculator_class kwargs = Return c ->
     base_field f c = Some (PyInt n)) /\
  (forall c,
     kwargs !! "embedding_output_dimensions" = None ->
     BaseEmbeddingConfig.from_settings BaseEmbeddingConfig.new config
       text_splitter_class text_splitter_length_calculator_class kwargs =
       Return c ->
     embedding_field f c = PyInt n).
Proof.
  intros Hv Hn. split; [|split].
  - intros model_id. by apply resolve_override.
  - intros c Hf Hc.
    apply base_config_fields in Hc as (m & _ & Hfields).
    destruct (Hfields f Hf) as (n' & Hr & ->).
    rewrite (dict_get_Some _ _ _ Hv), (resolve_override _ _ _ _ Hn) in Hr.
    by injection Hr as ->.
  - intros c Hk Hc.
    apply embedding_config_fields in Hc as (m & _ & Hfields); [|exact Hk].
    destruct (Hfields f) as (n' & Hr & ->).
    rewrite (dict_get_Some _ _ _ Hv), (resolve_override _ _ _ _ Hn) in Hr.
    by injection Hr as ->.
Qed.

Lemma override_is_resolved_witness :
  Sample.embed_1536 !! key EMBEDDING_OUTPUT_DIMENSIONS = Some (PyInt 1536) /\
  Builtins.int (PyInt 1536) = Return 1536 /\
  exists c,
    BaseEmbeddingConfig.from_settings (tokens := Sample.tokens)
      (embeddings := Sample.no_embeddings) (str := Sample.str)
      BaseEmbeddingConfig.new Sample.embed_1536 Sample.Splitter
      Sample.Calculator ∅ = Return c /\
    embedding_field EMBEDDING_OUTPUT_DIMENSIONS c = PyInt 1536.
Proof.
  split; [reflexivity |]. split; [reflexivity |].
  eexists. split; [vm_compute; reflexivity |].
  apply (override_is_resolved (tokens := Sample.tokens)
           (embeddings := Sample.no_embeddings) (str := Sample.str)
           Sample.embed_1536 Sample.Splitter Sample.Calculator ∅
           EMBEDDING_OUTPUT_DIMENSIONS (PyInt 1536) 1536);
    [reflexivity | reflexivity | reflexivity | vm_compute; reflexivity].
Defined.

(** C2. A field whose override is omitted, for a model whose default the
    external lookup returns (the token-limit lookup, the chunk-overlap
    provider or the embedding-dimension lookup), resolves to that default:
    the resolver returns it, every configuration that [from_settings]
    returns holds it in that field, and [from_settings] does return such a
    configuration, for [BaseConfig] and for [BaseEmbeddingConfig], once
    the other fields resolve. *)
Theorem default_is_resolved {tokens : Tokens} {embeddings : Embeddings}
  {str : Str} {S L : Type} (config : gmap string pyval)
  (text_splitter_class : text_splitter_type S)
  (text_splitter_length_calculator_class : length_calculator_type L)
  (kwargs : gmap string pyval) (f : field) (model_id : pyval) (d : Z) :
  config !! "MODEL_ID" = Some model_id ->
  config !! key f = None ->
  default_of f model_id = Return d ->
  resolve f model_id (dict_get config (key f)) = Return d /\
  (forall c,
     f <> EMBEDDING_OUTPUT_DIMENSIONS ->
     BaseConfig.from_settings BaseConfig.new config text_splitter_class
       text_splitter_length_calculator_class kwargs = Return c ->
     base_field f c = Some (PyInt d)) /\
  (forall c,
     kwargs !! "embedding_output_dimensions" = None ->
     BaseEmbeddingConfig.from_settings BaseEmbeddingConfig.new config
       text_splitter_class text_splitter_length_calculator_class kwargs =
       Return c ->
     embedding_field f c = PyInt d) /\
  (f <> EMBEDDING_OUTPUT_DIMENSIONS ->
   (forall g, g <> EMBEDDING_OUTPUT_DIMENSIONS -> g <> f ->
      exists n, resolve g model_id (dict_get config (key g)) = Return n) ->
   exists c,
     BaseConfig.from_settings BaseConfig.new config text_splitter_class
       text_splitter_length_calculator_class ∅ = Return c /\
     base_field f c = Some (PyInt d)) /\
  ((forall g, g <> f ->
      exists n, resolve g model_id (dict_get config (key g)) = Return n) ->
   exists c,
     BaseEmbeddingConfig.from_settings BaseEmbeddingConfig.new config
       text_splitter_class text_splitter_length_calculator_class ∅ =
       Return c /\
     embedding_field f c = PyInt d).
Proof.
  intros Hm Hv Hd.
  assert (resolve f model_id (dict_get config (key f)) = Return d) as Hr.
  { rewrite (dict_get_None _ _ Hv). by apply resolve_default. }
  assert (forall kw c,
    f <> EMBEDDING_OUTPUT_DIMENSIONS ->
    BaseConfig.from_settings BaseConfig.new config text_splitter_class
      text_splitter_length_calculator_class kw = Return c ->
    base_field f c = Some (PyInt d)) as Hbase.
  { intros kw c Hf Hc.
    apply base_config_fields in Hc as (m & Hm' & Hfields).
    rewrite Hm in Hm'. injection Hm' as <-.
    destruct (Hfields f Hf) as (n & Hn & ->).
    rewrite Hr in Hn. by injection Hn as ->. }
  assert (forall kw c,
    kw !! "embedding_output_dimensions" = None ->
    BaseEmbeddingConfig.from_settings BaseEmbeddingConfig.new config
      text_splitter_class text_splitter_length_calculator_class kw =
      Return c ->
    embedding_field f c = PyInt d) as Hembedding.
  { intros kw c Hk Hc.
    apply embedding_config_fields in Hc as (m & Hm' & Hfields); [|exact Hk].
    rewrite Hm in Hm'. injection Hm' as <-.
    destruct (Hfields f) as (n & Hn & ->).
    rewrite Hr in Hn. by injection Hn as ->. }
  split; [exact Hr |]. split; [apply Hbase |]. split; [apply Hembedding |].
  split.
  - intros Hf Hothers.
    assert (forall g, g <> EMBEDDING_OUTPUT_DIMENSIONS ->
      exists n, resolve g model_id (dict_get config (key g)) = Return n)
      as Hall.
    { intros g Hg. destruct (field_eq_dec g f) as [-> | Hne]; eauto. }
    destruct (Hall TOKEN_LIMIT) as [tl Htl]; [done |].
    destruct (Hall CHUNK_OVERLAP_CHARACTERS) as [co Hco]; [done |].
    eexists. split.
    + by apply (base_from_settings_resolved _ _ _ model_id tl co).
    + apply (Hbase ∅); [done |].
      by apply (base_from_settings_resolved _ _ _ model_id tl co).
  - intros Hothers.
    assert (forall g,
      exists n, resolve g model_id (dict_get config (key g)) = Return n)
      as Hall.
    { intros g. destruct (field_eq_dec g f) as [-> | Hne]; eauto. }
    destruct (Hall EMBEDDING_OUTPUT_DIMENSIONS) as [dd Hdd].
    destruct (Hall TOKEN_LIMIT) as [tl Htl].
    destruct (Hall CHUNK_OVERLAP_CHARACTERS) as [co Hco].
    eexists. split.
    + by apply (embedding_from_settings_resolved _ _ _ model_id dd tl co).
    + apply (Hembedding ∅); [done |].
      by apply (embedding_from_settings_resolved _ _ _ model_id dd tl co).
Qed.

(** [{"MODEL_ID": "gpt-4"}] takes the token limit of the lookup in the base
    resolution, and [{"MODEL_ID": "text-embed-1"}] the output dimensions of
    the lookup in the embedding resolution. *)
Lemma default_is_resolved_witness :
  (Sample.gpt4 !! "MODEL_ID" = Some (PyStr "gpt-4") /\
   Sample.gpt4 !! key TOKEN_LIMIT = None /\
   default_of (tokens := Sample.tokens) (embeddings := Sample.embeddings)
     TOKEN_LIMIT (PyStr "gpt-4") = Return 8192 /\
   exists c,
     BaseConfig.from_settings (tokens := Sample.tokens) (str := Sample.str)
       BaseConfig.new Sample.gpt4 Sample.Splitter Sample.Calculator ∅ =
       Return c /\
     base_field TOKEN_LIMIT c = Some (PyInt 8192)) /\
  let config : gmap string pyval :=
    <["MODEL_ID" := PyStr "text-embed-1"]> ∅ in
  config !! "MODEL_ID" = Some (PyStr "text-embed-1") /\
  config !! key EMBEDDING_OUTPUT_DIMENSIONS = None /\
  default_of (tokens := Sample.tokens) (embeddings := Sample.embeddings)
    EMBEDDING_OUTPUT_DIMENSIONS (PyStr "text-embed-1") = Return 1536 /\
  exists c,
    BaseEmbeddingConfig.from_settings (tokens := Sample.tokens)
      (embeddings := Sample.embeddings) (str := Sample.str)
      BaseEmbeddingConfig.new config Sample.Splitter Sample.Calculator ∅ =
      Return c /\
    embedding_field EMBEDDING_OUTPUT_DIMENSIONS c = PyInt 1536.
Proof.
  split.
  - split; [reflexivity |]. split; [reflexivity |]. split; [reflexivity |].
    destruct (default_is_resolved (tokens := Sample.tokens)
                (embeddings := Sample.embeddings) (str := Sample.str)
                Sample.gpt4 Sample.Splitter Sample.Calculator ∅
                TOKEN_LIMIT (PyStr "gpt-4") 8192 eq_refl eq_refl eq_refl)
      as (_ & _ & _ & Hbase & _).
    apply Hbase; [discriminate |].
    intros g Hg Hne. destruct g; [done | | done].
    exists 80. reflexivity.
  - intros config.
    split; [reflexivity |]. split; [reflexivity |]. split; [reflexivity |].
    destruct (default_is_resolved (tokens := Sample.tokens)
                (embeddings := Sample.embeddings) (str := Sample.str)
                config Sample.Splitter Sample.Calculator ∅
                EMBEDDING_OUTPUT_DIMENSIONS (PyStr "text-embed-1") 1536
                eq_refl eq_refl eq_refl)
      as (_ & _ & _ & _ & Hembedding).
    apply Hembedding.
    intros g Hne. destruct g; [| | done].
    + exists 8191. reflexivity.
    + exists 80. reflexivity.
Defined.

(** ** Missing defaults *)

(** C3, as stated, fails in the embedding resolution, which resolves the
    output dimensions before the token limit.
    [{"MODEL_ID": "unknown-model", "EMBEDDING_OUTPUT_DIMENSIONS": "abc"}]
    omits [TOKEN_LIMIT] and the lookup has no token limit for the model,
    but the error raised is the one of the dimensions: it names neither
    [TOKEN_LIMIT] nor the model.  With a list for the dimensions it is the
    [TypeError] of [int], no configuration error at all. *)
Lemma earlier_error_hides_missing_default :
  let settings (dimensions : pyval) : gmap string pyval :=
    <["MODEL_ID" := PyStr "unknown-model"]>
      (<["EMBEDDING_OUTPUT_DIMENSIONS" := dimensions]> ∅) in
  let message := not_an_int "EMBEDDING_OUTPUT_DIMENSIONS" (PyStr "abc") in
  settings (PyStr "abc") !! "TOKEN_LIMIT" = None /\
  settings (PyList []) !! "TOKEN_LIMIT" = None /\
  get_default_token_limit (Tokens := Sample.tokens) (PyStr "unknown-model") =
    Raise NoTokenLimitFound /\
  BaseEmbeddingConfig.from_settings (tokens := Sample.tokens)
    (embeddings := Sample.embeddings) (str := Sample.str)
    BaseEmbeddingConfig.new (settings (PyStr "abc")) Sample.Splitter
    Sample.Calculator ∅ = Raise (ImproperlyConfigured message ValueError) /\
  contains "TOKEN_LIMIT" message = false /\
  contains "unknown-model" message = false /\
  BaseEmbeddingConfig.from_settings (tokens := Sample.tokens)
    (embeddings := Sample.embeddings) (str := Sample.str)
    BaseEmbeddingConfig.new (settings (PyList [])) Sample.Splitter
    Sample.Calculator ∅ = Raise TypeError.
Proof.
  intros settings message.
  split; [reflexivity |]. split; [reflexivity |]. split; [reflexivity |].
  split; [vm_compute; reflexivity |]. split; [reflexivity |].
  split; [reflexivity | vm_compute; reflexivity].
Qed.

(** C3, amended. A settings mapping that omits an override, for a model id
    for which the external lookup has no default ([NoTokenLimitFound],
    [EmbeddingOutputDimensionsNotFound]), makes the resolver of the field
    raise [ImproperlyConfigured] with a message that names the field and
    the model id, and [from_settings] raises that error when the fields
    resolved before it did resolve: for [TOKEN_LIMIT] in the base
    resolution and for [EMBEDDING_OUTPUT_DIMENSIONS] in the embedding
    resolution, which come first, and for [TOKEN_LIMIT] in the embedding
    resolution once the dimensions are resolved. *)
Theorem missing_default_is_reported {tokens : Tokens}
  {embeddings : Embeddings} {str : Str} {S L C : Type}
  (cls : BaseConfig.class S L C) (config : gmap string pyval)
  (text_splitter_class : text_splitter_type S)
  (text_splitter_length_calculator_class : length_calculator_type L)
  (kwargs : gmap string pyval) (name : string) :
  config !! "MODEL_ID" = Some (PyStr name) ->
  (config !! "TOKEN_LIMIT" = None ->
   get_default_token_limit (PyStr name) = Raise NoTokenLimitFound ->
   exists msg,
     BaseConfig.get_token_limit (PyStr name) (dict_get config "TOKEN_LIMIT") =
       Raise (ImproperlyConfigured msg NoTokenLimitFound) /\
     contains "TOKEN_LIMIT" msg = true /\ contains name msg = true) /\
  (config !! "EMBEDDING_OUTPUT_DIMENSIONS" = None ->
   get_default_embedding_output_dimensions (PyStr name) =
     Raise EmbeddingOutputDimensionsNotFound ->
   exists msg,
     BaseEmbeddingConfig.get_embedding_output_dimensions (PyStr name)
       (dict_get config "EMBEDDING_OUTPUT_DIMENSIONS") =
       Raise (ImproperlyConfigured msg EmbeddingOutputDimensionsNotFound) /\
     contains "EMBEDDING_OUTPUT_DIMENSIONS" msg = true /\
     contains name msg = true) /\
  (config !! "TOKEN_LIMIT" = None ->
   get_default_token_limit (PyStr name) = Raise NoTokenLimitFound ->
   exists msg,
     BaseConfig.from_settings cls config text_splitter_class
       text_splitter_length_calculator_class kwargs =
       Raise (ImproperlyConfigured msg NoTokenLimitFound) /\
     contains "TOKEN_LIMIT" msg = true /\ contains name msg = true) /\
  (config !! "EMBEDDING_OUTPUT_DIMENSIONS" = None ->
   get_default_embedding_output_dimensions (PyStr name) =
     Raise EmbeddingOutputDimensionsNotFound ->
   exists msg,
     BaseEmbeddingConfig.from_settings cls config text_splitter_class
       text_splitter_length_calculator_class kwargs =
       Raise (ImproperlyConfigured msg EmbeddingOutputDimensionsNotFound) /\
     contains "EMBEDDING_OUTPUT_DIMENSIONS" msg = true /\
     contains name msg = true) /\
  (config !! "TOKEN_LIMIT" = None ->
   get_default_token_limit (PyStr name) = Raise NoTokenLimitFound ->
   forall d,
     resolve EMBEDDING_OUTPUT_DIMENSIONS (PyStr name)
       (dict_get config "EMBEDDING_OUTPUT_DIMENSIONS") = Return d ->
     exists msg,
       BaseEmbeddingConfig.from_settings cls config text_splitter_class
         text_splitter_length_calculator_class kwargs =
         Raise (ImproperlyConfigured msg NoTokenLimitFound) /\
       contains "TOKEN_LIMIT" msg = true /\ contains name msg = true).
Proof.
  intros Hm.
  assert (forall kw,
    config !! "TOKEN_LIMIT" = None ->
    get_default_token_limit (PyStr name) = Raise NoTokenLimitFound ->
    BaseConfig.from_settings cls config text_splitter_class
      text_splitter_length_calculator_class kw =
      Raise (ImproperlyConfigured (not_configured "TOKEN_LIMIT" (PyStr name))
               NoTokenLimitFound)) as Hbase.
  { intros kw Hv Hd. rewrite (base_from_settings_eq _ _ _ _ _ _ Hm).
    cbn [key]. rewrite (dict_get_None _ _ Hv).
    by rewrite (token_limit_not_found _ Hd). }
  split; [|split; [|split; [|split]]].
  - intros Hv Hd. eexists. split.
    + rewrite (dict_get_None _ _ Hv).
      apply (token_limit_not_found (embeddings := embeddings) _ Hd).
    + split.
      * apply (not_configured_names_field TOKEN_LIMIT).
      * apply (not_configured_names_model TOKEN_LIMIT).
  - intros Hv Hd. eexists. split.
    + rewrite (dict_get_None _ _ Hv).
      apply (embedding_output_dimensions_not_found (tokens := tokens) _ Hd).
    + split.
      * apply (not_configured_names_field EMBEDDING_OUTPUT_DIMENSIONS).
      * apply (not_configured_names_model EMBEDDING_OUTPUT_DIMENSIONS).
  - intros Hv Hd. eexists. split; [by apply Hbase |]. split.
    + apply (not_configured_names_field TOKEN_LIMIT).
    + apply (not_configured_names_model TOKEN_LIMIT).
  - intros Hv Hd. eexists. split.
    + rewrite (embedding_from_settings_eq _ _ _ _ _ _ Hm). cbn [key].
      rewrite (dict_get_None _ _ Hv).
      by rewrite (embedding_output_dimensions_not_found _ Hd).
    + split.
      * apply (not_configured_names_field EMBEDDING_OUTPUT_DIMENSIONS).
      * apply (not_configured_names_model EMBEDDING_OUTPUT_DIMENSIONS).
  - intros Hv Hd d Hdim. eexists. split.
    + rewrite (embedding_from_settings_eq _ _ _ _ _ _ Hm). cbn [key].
      rewrite Hdim. simpl. by apply Hbase.
    + split.
      * apply (not_configured_names_field TOKEN_LIMIT).
      * apply (not_configured_names_model TOKEN_LIMIT).
Qed.

(** The example of the specification, [{"MODEL_ID": "unknown-model"}], in
    the base resolution and, with the dimensions given, in the embedding
    resolution. *)
Lemma missing_default_is_reported_witness :
  (Sample.unknown_model !! "MODEL_ID" = Some (PyStr "unknown-model") /\
   Sample.unknown_model !! "TOKEN_LIMIT" = None /\
   get_default_token_limit (Tokens := Sample.tokens)
     (PyStr "unknown-model") = Raise NoTokenLimitFound /\
   exists msg,
     BaseConfig.from_settings (tokens := Sample.tokens) (str := Sample.str)
       BaseConfig.new Sample.unknown_model Sample.Splitter Sample.Calculator
       ∅ = Raise (ImproperlyConfigured msg NoTokenLimitFound) /\
     contains "TOKEN_LIMIT" msg = true /\
     contains "unknown-model" msg = true) /\
  let config : gmap string pyval :=
    <["MODEL_ID" := PyStr "unknown-model"]>
      (<["EMBEDDING_OUTPUT_DIMENSIONS" := PyInt 1536]> ∅) in
  config !! "MODEL_ID" = Some (PyStr "unknown-model") /\
  config !! "TOKEN_LIMIT" = None /\
  resolve (tokens := Sample.tokens) (embeddings := Sample.embeddings)
    (str := Sample.str) EMBEDDING_OUTPUT_DIMENSIONS (PyStr "unknown-model")
    (dict_get config "EMBEDDING_OUTPUT_DIMENSIONS") = Return 1536 /\
  exists msg,
    BaseEmbeddingConfig.from_settings (tokens := Sample.tokens)
      (embeddings := Sample.embeddings) (str := Sample.str)
      BaseEmbeddingConfig.new config Sample.Splitter Sample.Calculator ∅ =
      Raise (ImproperlyConfigured msg NoTokenLimitFound) /\
    contains "TOKEN_LIMIT" msg = true /\
    contains "unknown-model" msg = true.
Proof.
  split.
  - split; [reflexivity |]. split; [reflexivity |]. split; [reflexivity |].
    apply (missing_default_is_reported (tokens := Sample.tokens)
             (embeddings := Sample.embeddings) (str := Sample.str)
             BaseConfig.new Sample.unknown_model Sample.Splitter
             Sample.Calculator ∅ "unknown-model");
      reflexivity.
  - intros config.
    split; [reflexivity |]. split; [reflexivity |]. split; [reflexivity |].
    destruct (missing_default_is_reported (tokens := Sample.tokens)
                (embeddings := Sample.embeddings) (str := Sample.str)
                BaseEmbeddingConfig.new config Sample.Splitter
                Sample.Calculator ∅ "unknown-model" eq_refl)
      as (_ & _ & _ & _ & Hembedding).
    apply (Hembedding eq_refl eq_refl 1536). reflexivity.
Defined.

(** ** The first field that fails *)

Section FirstFailure.
Context {tokens : Tokens} {embeddings : Embeddings} {str : Str}.
Context {S L C : Type} (cls : BaseConfig.class S L C).
Context (config : gmap string pyval).
Context (text_splitter_class : text_splitter_type S).
Context (text_splitter_length_calculator_class : length_calculator_type L).

(** The base resolution raises what the first failing resolver raises. *)
Lemma base_first_failure kwargs model_id f e :
  config !! "MODEL_ID" = Some model_id ->
  f <> EMBEDDING_OUTPUT_DIMENSIONS ->
  resolve f model_id (dict_get config (key f)) = Raise e ->
  (forall g, g <> EMBEDDING_OUTPUT_DIMENSIONS -> precedes g f ->
     exists n, resolve g model_id (dict_get config (key g)) = Return n) ->
  BaseConfig.from_settings cls config text_splitter_class
    text_splitter_length_calculator_class kwargs = Raise e.
Proof.
  intros Hm Hf He Hbefore. rewrite (base_from_settings_eq _ _ _ _ _ _ Hm).
  destruct f; [by rewrite He | | done].
  destruct (Hbefore TOKEN_LIMIT) as [tl ->];
    [done | unfold precedes; simpl; lia |].
  by rewrite He.
Qed.

(** So does the embedding resolution. *)
Lemma embedding_first_failure kwargs model_id f e :
  config !! "MODEL_ID" = Some model_id ->
  resolve f model_id (dict_get config (key f)) = Raise e ->
  (forall g, precedes g f ->
     exists n, resolve g model_id (dict_get config (key g)) = Return n) ->
  BaseEmbeddingConfig.from_settings cls config text_splitter_class
    text_splitter_length_calculator_class kwargs = Raise e.
Proof.
  intros Hm He Hbefore.
  rewrite (embedding_from_settings_eq _ _ _ _ _ _ Hm).
  assert (f = EMBEDDING_OUTPUT_DIMENSIONS \/ f <> EMBEDDING_OUTPUT_DIMENSIONS)
    as [-> | Hf] by (destruct f; auto).
  - by rewrite He.
  - destruct (Hbefore EMBEDDING_OUTPUT_DIMENSIONS) as [d ->].
    { unfold precedes. destruct f; simpl; [lia | lia | done]. }
    apply (base_first_failure _ model_id f); try done.
    intros g _ Hg. by apply Hbefore.
Qed.

End FirstFailure.

(** ** Overrides that [int] does not accept *)

Lemma int_ValueError_not_None v :
  Builtins.int v = Raise ValueError -> is_None v = false.
Proof. by destruct v. Qed.

Lemma int_TypeError_list items : Builtins.int (PyList items) = Raise TypeError.
Proof. reflexivity. Qed.

(** C4, as stated, fails: a list cannot be coerced to an integer, and with
    [{"MODEL_ID": "gpt-4", "TOKEN_LIMIT": []}] the resolution raises the
    [TypeError] of [int], which is no configuration error. *)
Lemma list_override_is_not_reported :
  Sample.gpt4_list_limit !! "TOKEN_LIMIT" = Some (PyList []) /\
  Builtins.int (PyList []) = Raise TypeError /\
  BaseConfig.from_settings (tokens := Sample.tokens) (str := Sample.str)
    BaseConfig.new Sample.gpt4_list_limit Sample.Splitter Sample.Calculator
    ∅ = Raise TypeError /\
  ~ (exists msg cause,
       BaseConfig.from_settings (tokens := Sample.tokens) (str := Sample.str)
         BaseConfig.new Sample.gpt4_list_limit Sample.Splitter
         Sample.Calculator ∅ = Raise (ImproperlyConfigured msg cause)).
Proof.
  assert (BaseConfig.from_settings (tokens := Sample.tokens)
            (str := Sample.str) BaseConfig.new Sample.gpt4_list_limit
            Sample.Splitter Sample.Calculator ∅ = Raise TypeError) as Hr
    by (vm_compute; reflexivity).
  split; [reflexivity |]. split; [reflexivity |]. split; [exact Hr |].
  intros (msg & cause & H). rewrite Hr in H. discriminate.
Qed.

(** C4, amended. An override for which [int] raises [ValueError] (a string
    that is no numeral, a NaN) makes its resolver raise
    [ImproperlyConfigured] with a message that names the field, and
    [from_settings] raises that error when the fields resolved before it
    did resolve. *)
Theorem ValueError_is_reported {tokens : Tokens} {embeddings : Embeddings}
  {str : Str} {S L C : Type} (cls : BaseConfig.class S L C)
  (config : gmap string pyval)
  (text_splitter_class : text_splitter_type S)
  (text_splitter_length_calculator_class : length_calculator_type L)
  (kwargs : gmap string pyval) (model_id : pyval) (f : field) (v : pyval) :
  config !! "MODEL_ID" = Some model_id ->
  config !! key f = Some v ->
  Builtins.int v = Raise ValueError ->
  let e := ImproperlyConfigured (not_an_int (key f) v) ValueError in
  resolve f model_id v = Raise e /\
  contains (key f) (not_an_int (key f) v) = true /\
  (f <> EMBEDDING_OUTPUT_DIMENSIONS ->
   (forall g, g <> EMBEDDING_OUTPUT_DIMENSIONS -> precedes g f ->
      exists n, resolve g model_id (dict_get config (key g)) = Return n) ->
   BaseConfig.from_settings cls config text_splitter_class
     text_splitter_length_calculator_class kwargs = Raise e) /\
  ((forall g, precedes g f ->
      exists n, resolve g model_id (dict_get config (key g)) = Return n) ->
   BaseEmbeddingConfig.from_settings cls config text_splitter_class
     text_splitter_length_calculator_class kwargs = Raise e).
Proof.
  intros Hm Hv Hint e.
  assert (resolve f model_id v = Raise e) as Hr.
  { rewrite resolve_present by eauto using int_ValueError_not_None.
    by apply coerce_ValueError. }
  split; [exact Hr |]. split; [apply not_an_int_names_field |]. split.
  - intros Hf Hbefore.
    apply base_first_failure with (model_id := model_id) (f := f); try done.
    by rewrite (dict_get_Some _ _ _ Hv).
  - intros Hbefore.
    apply embedding_first_failure with (model_id := model_id) (f := f);
      try done.
    by rewrite (dict_get_Some _ _ _ Hv).
Qed.

Lemma ValueError_is_reported_witness :
  Sample.gpt4_bad_limit !! "MODEL_ID" = Some (PyStr "gpt-4") /\
  Sample.gpt4_bad_limit !! key TOKEN_LIMIT = Some (PyStr "abc") /\
  Builtins.int (PyStr "abc") = Raise ValueError /\
  BaseConfig.from_settings (tokens := Sample.tokens) (str := Sample.str)
    BaseConfig.new Sample.gpt4_bad_limit Sample.Splitter Sample.Calculator
    ∅ =
    Raise (ImproperlyConfigured (not_an_int "TOKEN_LIMIT" (PyStr "abc"))
             ValueError) /\
  contains "TOKEN_LIMIT" (not_an_int "TOKEN_LIMIT" (PyStr "abc")) = true.
Proof.
  split; [reflexivity |]. split; [reflexivity |]. split; [reflexivity |].
  destruct (ValueError_is_reported (tokens := Sample.tokens)
              (embeddings := Sample.embeddings) (str := Sample.str)
              BaseConfig.new Sample.gpt4_bad_limit Sample.Splitter
              Sample.Calculator ∅ (PyStr "gpt-4") TOKEN_LIMIT (PyStr "abc")
              eq_refl eq_refl eq_refl) as (_ & Hname & Hbase & _).
  split; [| exact Hname].
  apply Hbase; [discriminate |].
  intros g Hg Hbefore. destruct g; [| | done]; unfold precedes in Hbefore;
    simpl in Hbefore; lia.
Defined.

(** ** Absent overrides *)

(** C5, as stated, fails for the chunk overlap.  With lookups in which no
    model is registered, [{"MODEL_ID": "unknown-model", "TOKEN_LIMIT": 4096}]
    has no [CHUNK_OVERLAP_CHARACTERS], and the resolution does not fail: it
    returns the chunk overlap of the provider, the same for every model. *)
Lemma chunk_overlap_needs_no_registered_default :
  (forall model_id,
     get_default_token_limit (Tokens := Sample.no_tokens) model_id =
       Raise NoTokenLimitFound) /\
  (forall model_id,
     get_default_embedding_output_dimensions
       (Embeddings := Sample.no_embeddings) model_id =
       Raise EmbeddingOutputDimensionsNotFound) /\
  Sample.unknown_model_with_limit !! "CHUNK_OVERLAP_CHARACTERS" = None /\
  BaseConfig.from_settings (tokens := Sample.no_tokens) (str := Sample.str)
    BaseConfig.new Sample.unknown_model_with_limit Sample.Splitter
    Sample.Calculator ∅ =
    Return (BaseConfig.Build_t _ _ 80 (PyStr "unknown-model") Sample.Splitter
              Sample.Calculator 4096) /\
  BaseConfig.get_chunk_overlap (tokens := Sample.no_tokens)
    (PyStr "unknown-model") PyNone = Return 80 /\
  BaseConfig.get_chunk_overlap (tokens := Sample.no_tokens)
    (PyStr "gpt-4") PyNone = Return 80.
Proof.
  split; [by intros [| | | | s |] |]. split; [by intros [| | | | s |] |].
  split; [reflexivity |]. split; [vm_compute; reflexivity |].
  split; reflexivity.
Qed.

(** C5, amended. With the override absent, the token limit and the
    embedding output dimensions are looked up by model id: the resolver
    returns a default the lookup returns, and raises
    [ImproperlyConfigured], naming the field and the model, when the lookup
    has none.  The chunk overlap is what the chunk-overlap provider gives:
    the provider is not asked about a model, so the result is the same for
    every model id, and the resolver adds no error of its own. *)
Theorem absent_override_uses_lookup {tokens : Tokens}
  {embeddings : Embeddings} {str : Str} (config : gmap string pyval)
  (model_id : pyval) (f : field) :
  config !! key f = None ->
  let r := resolve f model_id (dict_get config (key f)) in
  (forall d, default_of f model_id = Return d -> r = Return d) /\
  (f = TOKEN_LIMIT ->
   default_of f model_id = Raise NoTokenLimitFound ->
   r = Raise (ImproperlyConfigured (not_configured (key f) model_id)
                NoTokenLimitFound)) /\
  (f = EMBEDDING_OUTPUT_DIMENSIONS ->
   default_of f model_id = Raise EmbeddingOutputDimensionsNotFound ->
   r = Raise (ImproperlyConfigured (not_configured (key f) model_id)
                EmbeddingOutputDimensionsNotFound)) /\
  contains (key f) (not_configured (key f) model_id) = true /\
  (forall name, model_id = PyStr name ->
     contains name (not_configured (key f) model_id) = true) /\
  (f = CHUNK_OVERLAP_CHARACTERS ->
   r = get_default_chunk_overlap /\
   forall other, resolve f other (dict_get config (key f)) = r).
Proof.
  intros Hv r. subst r. rewrite (dict_get_None _ _ Hv).
  split; [intros d; apply resolve_default |].
  split; [intros -> ; apply token_limit_not_found |].
  split; [intros -> ; apply embedding_output_dimensions_not_found |].
  split; [apply not_configured_names_field |].
  split; [intros name ->; apply not_configured_names_model |].
  intros ->. split; [apply chunk_overlap_default | done].
Qed.

Lemma absent_override_uses_lookup_witness :
  Sample.unknown_model_with_limit !! key CHUNK_OVERLAP_CHARACTERS = None /\
  resolve (tokens := Sample.no_tokens) (embeddings := Sample.no_embeddings)
    (str := Sample.str) CHUNK_OVERLAP_CHARACTERS (PyStr "unknown-model")
    (dict_get Sample.unknown_model_with_limit (key CHUNK_OVERLAP_CHARACTERS))
    = Return 80 /\
  Sample.unknown_model !! key TOKEN_LIMIT = None /\
  default_of (tokens := Sample.no_tokens) (embeddings := Sample.no_embeddings)
    TOKEN_LIMIT (PyStr "unknown-model") = Raise NoTokenLimitFound /\
  resolve (tokens := Sample.no_tokens) (embeddings := Sample.no_embeddings)
    (str := Sample.str) TOKEN_LIMIT (PyStr "unknown-model")
    (dict_get Sample.unknown_model (key TOKEN_LIMIT)) =
    Raise (ImproperlyConfigured
             (not_configured (str := Sample.str) "TOKEN_LIMIT"
                (PyStr "unknown-model")) NoTokenLimitFound).
Proof.
  split; [reflexivity |]. split.
  - destruct (absent_override_uses_lookup (tokens := Sample.no_tokens)
                (embeddings := Sample.no_embeddings) (str := Sample.str)
                Sample.unknown_model_with_limit (PyStr "unknown-model")
                CHUNK_OVERLAP_CHARACTERS eq_refl)
      as (_ & _ & _ & _ & _ & Hchunk).
    destruct (Hchunk eq_refl) as [-> _]. reflexivity.
  - split; [reflexivity |]. split; [reflexivity |].
    destruct (absent_override_uses_lookup (tokens := Sample.no_tokens)
                (embeddings := Sample.no_embeddings) (str := Sample.str)
                Sample.unknown_model (PyStr "unknown-model")
                TOKEN_LIMIT eq_refl)
      as (_ & Htoken & _).
    apply Htoken; reflexivity.
Defined.

(** ** Atomic resolution *)

(** C6, as stated, fails: the error of a failed coercion names the field
    and the type of the value, not the model.  With
    [{"MODEL_ID": "gpt-4", "TOKEN_LIMIT": "abc"}] the message does not
    mention [gpt-4]. *)
Lemma coercion_error_omits_model :
  BaseConfig.from_settings (tokens := Sample.tokens) (str := Sample.str)
    BaseConfig.new Sample.gpt4_bad_limit Sample.Splitter Sample.Calculator
    ∅ =
    Raise (ImproperlyConfigured (not_an_int "TOKEN_LIMIT" (PyStr "abc"))
             ValueError) /\
  not_an_int "TOKEN_LIMIT" (PyStr "abc") =
    quoted "TOKEN_LIMIT" +:+ " is not an " +:+ quoted "int" +:+ ", it is a "
    +:+ quoted "<class 'str'>" +:+ "." /\
  contains "gpt-4" (not_an_int "TOKEN_LIMIT" (PyStr "abc")) = false.
Proof. split; [vm_compute; reflexivity |]. split; reflexivity. Qed.

Lemma new_no_keywords {S L : Type} chunk_overlap_characters model_id
  (text_splitter_class : text_splitter_type S)
  (text_splitter_length_calculator_class : length_calculator_type L)
  token_limit :
  BaseConfig.new chunk_overlap_characters model_id text_splitter_class
    text_splitter_length_calculator_class token_limit ∅ =
  Return (BaseConfig.Build_t S L chunk_overlap_characters model_id
            text_splitter_class text_splitter_length_calculator_class
            token_limit).
Proof. reflexivity. Qed.

Lemma embedding_new_dimensions {S L : Type} chunk_overlap_characters model_id
  (text_splitter_class : text_splitter_type S)
  (text_splitter_length_calculator_class : length_calculator_type L)
  token_limit d :
  BaseEmbeddingConfig.new chunk_overlap_characters model_id
    text_splitter_class text_splitter_length_calculator_class token_limit
    (setdefault ∅ "embedding_output_dimensions" d) =
  Return (BaseEmbeddingConfig.Build_t S L
            (BaseConfig.Build_t S L chunk_overlap_characters model_id
               text_splitter_class text_splitter_length_calculator_class
               token_limit) d).
Proof. reflexivity. Qed.

(** Every error of a resolver is one of four: the configuration error for
    a failed coercion, the configuration error for a missing default, an
    error of [int] other than [ValueError], or an error of the lookup other
    than the one the resolver catches. *)
Lemma resolve_Raise {tokens : Tokens} {embeddings : Embeddings} {str : Str}
  f model_id v e :
  resolve f model_id v = Raise e ->
  (e = ImproperlyConfigured (not_an_int (key f) v) ValueError /\
   Builtins.int v = Raise ValueError) \/
  (exists cause,
     e = ImproperlyConfigured (not_configured (key f) model_id) cause /\
     is_None v = true /\ default_of f model_id = Raise cause) \/
  (is_None v = false /\ Builtins.int v = Raise e /\ e <> ValueError) \/
  (is_None v = true /\ default_of f model_id = Raise e).
Proof.
  destruct (is_None v) eqn:Hv.
  - destruct v; try discriminate. clear Hv.
    destruct f; simpl;
      unfold BaseConfig.get_token_limit, BaseConfig.get_chunk_overlap,
        BaseEmbeddingConfig.get_embedding_output_dimensions; simpl.
    + destruct (get_default_token_limit model_id) as [d | []] eqn:Hd;
        intros [= <-]; eauto 6.
    + intros ->. eauto 6.
    + destruct (get_default_embedding_output_dimensions model_id)
        as [d | []] eqn:Hd; intros [= <-]; eauto 6.
  - rewrite resolve_present by done. unfold coerce.
    destruct (Builtins.int v) as [n | []] eqn:Hn; intros [= <-];
      first [ by left | right; right; left; by repeat split ].
Qed.

(** A value a resolver returns is [int] of the custom value or what the
    lookup returned. *)
Lemma resolve_Return {tokens : Tokens} {embeddings : Embeddings} {str : Str}
  f model_id v n :
  resolve f model_id v = Return n ->
  (is_None v = false /\ Builtins.int v = Return n) \/
  (is_None v = true /\ default_of f model_id = Return n).
Proof.
  destruct (is_None v) eqn:Hv.
  - destruct v; try discriminate. clear Hv. right. split; [done |].
    revert H. destruct f; simpl;
      unfold BaseConfig.get_token_limit, BaseConfig.get_chunk_overlap,
        BaseEmbeddingConfig.get_embedding_output_dimensions; simpl.
    + by destruct (get_default_token_limit model_id) as [d | []].
    + done.
    + by destruct (get_default_embedding_output_dimensions model_id)
        as [d | []].
  - rewrite resolve_present by done. unfold coerce. intros Hn. left.
    split; [done |]. by destruct (Builtins.int v) as [k | []].
Qed.

(** C6, amended. [from_settings] returns a configuration with every field
    resolved, or raises the error of the first field that fails to resolve
    and returns no configuration: the token limit and then the chunk
    overlap for [BaseConfig], the output dimensions before them for
    [BaseEmbeddingConfig].  A configuration error for a missing default
    names the field and the model; one for a failed coercion names the
    field, not the model; other errors of [int] and of the lookups are
    raised as they are. *)
Theorem resolution_is_atomic {tokens : Tokens} {embeddings : Embeddings}
  {str : Str} {S L : Type} (config : gmap string pyval)
  (text_splitter_class : text_splitter_type S)
  (text_splitter_length_calculator_class : length_calculator_type L)
  (model_id : pyval) :
  config !! "MODEL_ID" = Some model_id ->
  let resolved f := resolve f model_id (dict_get config (key f)) in
  BaseConfig.from_settings BaseConfig.new config text_splitter_class
    text_splitter_length_calculator_class ∅ =
    match resolved TOKEN_LIMIT, resolved CHUNK_OVERLAP_CHARACTERS with
    | Return token_limit, Return chunk_overlap_characters =>
        Return (BaseConfig.Build_t S L chunk_overlap_characters model_id
                  text_splitter_class text_splitter_length_calculator_class
                  token_limit)
    | Raise e, _ => Raise e
    | Return _, Raise e => Raise e
    end /\
  BaseEmbeddingConfig.from_settings BaseEmbeddingConfig.new config
    text_splitter_class text_splitter_length_calculator_class ∅ =
    match resolved EMBEDDING_OUTPUT_DIMENSIONS, resolved TOKEN_LIMIT,
          resolved CHUNK_OVERLAP_CHARACTERS with
    | Return dimensions, Return token_limit, Return chunk_overlap_characters =>
        Return (BaseEmbeddingConfig.Build_t S L
                  (BaseConfig.Build_t S L chunk_overlap_characters model_id
                     text_splitter_class
                     text_splitter_length_calculator_class token_limit)
                  (PyInt dimensions))
    | Raise e, _, _ => Raise e
    | Return _, Raise e, _ => Raise e
    | Return _, Return _, Raise e => Raise e
    end /\
  (forall f e,
     resolved f = Raise e ->
     let v := dict_get config (key f) in
     (e = ImproperlyConfigured (not_an_int (key f) v) ValueError /\
      Builtins.int v = Raise ValueError /\
      contains (key f) (not_an_int (key f) v) = true) \/
     (exists cause,
        e = ImproperlyConfigured (not_configured (key f) model_id) cause /\
        is_None v = true /\ default_of f model_id = Raise cause /\
        contains (key f) (not_configured (key f) model_id) = true /\
        forall name, model_id = PyStr name ->
          contains name (not_configured (key f) model_id) = true) \/
     (is_None v = false /\ Builtins.int v = Raise e /\ e <> ValueError) \/
     (is_None v = true /\ default_of f model_id = Raise e)).
Proof.
  intros Hm resolved. split; [|split].
  - rewrite (base_from_settings_eq _ _ _ _ _ _ Hm).
    fold (resolved TOKEN_LIMIT). fold (resolved CHUNK_OVERLAP_CHARACTERS).
    destruct (resolved TOKEN_LIMIT) as [tl | e]; [|done].
    destruct (resolved CHUNK_OVERLAP_CHARACTERS) as [co | e]; [|done].
    apply new_no_keywords.
  - rewrite (embedding_from_settings_eq _ _ _ _ _ _ Hm).
    fold (resolved EMBEDDING_OUTPUT_DIMENSIONS).
    destruct (resolved EMBEDDING_OUTPUT_DIMENSIONS) as [d | e]; [|done].
    cbn [mbind result_bind].
    rewrite (base_from_settings_eq _ _ _ _ _ _ Hm).
    fold (resolved TOKEN_LIMIT). fold (resolved CHUNK_OVERLAP_CHARACTERS).
    destruct (resolved TOKEN_LIMIT) as [tl | e]; [|done].
    destruct (resolved CHUNK_OVERLAP_CHARACTERS) as [co | e]; [|done].
    apply embedding_new_dimensions.
  - intros f e He v.
    apply resolve_Raise in He as [[-> Hint] | [(cause & -> & Hv & Hd) | H]].
    + left. split; [done |]. split; [done | apply not_an_int_names_field].
    + right; left. exists cause. split; [done |]. split; [done |].
      split; [done |]. split; [apply not_configured_names_field |].
      intros name ->. apply not_configured_names_model.
    + right; right. exact H.
Qed.

Lemma resolution_is_atomic_witness :
  Sample.embed_1536 !! "MODEL_ID" = Some (PyStr "text-embed-1") /\
  BaseEmbeddingConfig.from_settings (tokens := Sample.tokens)
    (embeddings := Sample.embeddings) (str := Sample.str)
    BaseEmbeddingConfig.new Sample.embed_1536 Sample.Splitter
    Sample.Calculator ∅ =
    Return (BaseEmbeddingConfig.Build_t _ _
              (BaseConfig.Build_t _ _ 80 (PyStr "text-embed-1")
                 Sample.Splitter Sample.Calculator 8191)
              (PyInt 1536)) /\
  BaseEmbeddingConfig.from_settings (tokens := Sample.no_tokens)
    (embeddings := Sample.embeddings) (str := Sample.str)
    BaseEmbeddingConfig.new Sample.embed_1536 Sample.Splitter
    Sample.Calculator ∅ =
    Raise (ImproperlyConfigured
             (not_configured (str := Sample.str) "TOKEN_LIMIT"
                (PyStr "text-embed-1")) NoTokenLimitFound).
Proof.
  split; [reflexivity |]. split.
  - rewrite (proj1 (proj2 (resolution_is_atomic (tokens := Sample.tokens)
               (embeddings := Sample.embeddings) (str := Sample.str)
               Sample.embed_1536 Sample.Splitter Sample.Calculator
               (PyStr "text-embed-1") eq_refl))).
    reflexivity.
  - rewrite (proj1 (proj2 (resolution_is_atomic (tokens := Sample.no_tokens)
               (embeddings := Sample.embeddings) (str := Sample.str)
               Sample.embed_1536 Sample.Splitter Sample.Calculator
               (PyStr "text-embed-1") eq_refl))).
    reflexivity.
Defined.

(** ** The example of a numeral in a string *)

(** C7. Resolving [{"MODEL_ID": "gpt-4", "TOKEN_LIMIT": "8000"}]: the
    resolver turns the string into the integer 8000, whatever the token-limit
    lookup holds, and [from_settings] returns a configuration whose token
    limit is 8000, its chunk overlap being what the provider gives. *)
Theorem string_token_limit_is_coerced {tokens : Tokens} {str : Str}
  {S L : Type} (text_splitter_class : text_splitter_type S)
  (text_splitter_length_calculator_class : length_calculator_type L)
  (d : Z) :
  get_default_chunk_overlap = Return d ->
  BaseConfig.get_token_limit (PyStr "gpt-4") (PyStr "8000") = Return 8000 /\
  BaseConfig.from_settings BaseConfig.new
    (<["MODEL_ID" := PyStr "gpt-4"]> (<["TOKEN_LIMIT" := PyStr "8000"]> ∅))
    text_splitter_class text_splitter_length_calculator_class ∅ =
    Return (BaseConfig.Build_t S L d (PyStr "gpt-4") text_splitter_class
              text_splitter_length_calculator_class 8000).
Proof.
  intros Hd. split; [reflexivity |].
  unfold BaseConfig.from_settings.
  change (subscript _ "MODEL_ID") with (Return (PyStr "gpt-4")).
  change (dict_get _ "TOKEN_LIMIT") with (PyStr "8000").
  change (dict_get _ "CHUNK_OVERLAP_CHARACTERS") with PyNone.
  cbn [mbind result_bind].
  change (BaseConfig.get_token_limit _ _) with (Return (A := Z) 8000).
  change (BaseConfig.get_chunk_overlap _ _) with get_default_chunk_overlap.
  rewrite Hd. reflexivity.
Qed.

Lemma string_token_limit_is_coerced_witness :
  get_default_chunk_overlap (Tokens := Sample.tokens) = Return 80 /\
  BaseConfig.from_settings (tokens := Sample.tokens) (str := Sample.str)
    BaseConfig.new Sample.gpt4_string_limit Sample.Splitter Sample.Calculator
    ∅ =
    Return (BaseConfig.Build_t _ _ 80 (PyStr "gpt-4") Sample.Splitter
              Sample.Calculator 8000).
Proof.
  split; [reflexivity |].
  apply (string_token_limit_is_coerced (tokens := Sample.tokens)
           (str := Sample.str) Sample.Splitter Sample.Calculator 80).
  reflexivity.
Defined.

(** ** The text splitter of a backend *)

(** C8. [get_text_splitter] calls the splitter class of the configuration
    with the token limit as chunk size, the chunk overlap of the
    configuration as chunk overlap, and as length function the
    [get_splitter_length] of an instance of the length-calculator class of
    the configuration; for a backend whose configuration comes from
    [from_settings], these are the classes handed to [from_settings]. *)
Theorem get_text_splitter_uses_config {tokens : Tokens}
  {embeddings : Embeddings} {str : Str} {S L : Type}
  {protocol : TextSplitterLengthCalculatorProtocol L} :
  (forall (C : Type) (any : AnyBackendConfig C S L) (self : BaseBackend.t C),
     let c := as_base (BaseBackend.config self) in
     BaseBackend.get_splitter_length_calculator self =
       BaseConfig.text_splitter_length_calculator_class c tt /\
     BaseBackend.get_text_splitter self =
       BaseConfig.text_splitter_class c
         (BaseConfig.token_limit c)
         (BaseConfig.chunk_overlap_characters c)
         (get_splitter_length
            (BaseConfig.text_splitter_length_calculator_class c tt))) /\
  (forall config (text_splitter_class : text_splitter_type S)
     (text_splitter_length_calculator_class : length_calculator_type L)
     kwargs c,
     BaseConfig.from_settings BaseConfig.new config text_splitter_class
       text_splitter_length_calculator_class kwargs = Return c ->
     BaseBackend.get_text_splitter {| BaseBackend.config := c |} =
       text_splitter_class
         (BaseConfig.token_limit c)
         (BaseConfig.chunk_overlap_characters c)
         (get_splitter_length (text_splitter_length_calculator_class tt))) /\
  (forall config (text_splitter_class : text_splitter_type S)
     (text_splitter_length_calculator_class : length_calculator_type L)
     kwargs c,
     BaseEmbeddingConfig.from_settings BaseEmbeddingConfig.new config
       text_splitter_class text_splitter_length_calculator_class kwargs =
       Return c ->
     BaseBackend.get_text_splitter {| BaseBackend.config := c |} =
       text_splitter_class
         (BaseConfig.token_limit (BaseEmbeddingConfig.base c))
         (BaseConfig.chunk_overlap_characters (BaseEmbeddingConfig.base c))
         (get_splitter_length (text_splitter_length_calculator_class tt))).
Proof.
  split; [|split].
  - intros C any self c. split; reflexivity.
  - intros config tsc tslc kwargs c Hc.
    apply base_from_settings_Return in Hc as (m & tl & co & _ & _ & _ & Hc).
    apply new_Return in Hc as ->. reflexivity.
  - intros config tsc tslc kwargs c Hc.
    apply embedding_from_settings_Return in Hc
      as (m & d & tl & co & _ & _ & _ & _ & Hc).
    apply embedding_new_Return in Hc as [Hbase _].
    unfold BaseBackend.get_text_splitter,
      BaseBackend.get_splitter_length_calculator, as_base,
      embedding_config_any. cbn [BaseBackend.config].
    rewrite Hbase. reflexivity.
Qed.

Lemma get_text_splitter_uses_config_witness :
  let c :=
    BaseConfig.Build_t _ _ 80 (PyStr "gpt-4") Sample.Splitter
      Sample.Calculator 8000 in
  BaseConfig.from_settings (tokens := Sample.tokens) (str := Sample.str)
    BaseConfig.new Sample.gpt4_string_limit Sample.Splitter
    Sample.Calculator ∅ = Return c /\
  let splitter :=
    BaseBackend.get_text_splitter (protocol := Sample.calculator_protocol)
      {| BaseBackend.config := c |} in
  Sample.chunk_size splitter = 8000 /\
  Sample.chunk_overlap splitter = 80 /\
  Sample.length_function splitter "four" = 4.
Proof.
  intros c.
  assert (BaseConfig.from_settings (tokens := Sample.tokens)
            (str := Sample.str) BaseConfig.new Sample.gpt4_string_limit
            Sample.Splitter Sample.Calculator ∅ = Return c) as Hc
    by (vm_compute; reflexivity).
  split; [exact Hc |].
  intros splitter. subst splitter.
  rewrite (proj1 (proj2 (get_text_splitter_uses_config
             (tokens := Sample.tokens) (embeddings := Sample.embeddings)
             (str := Sample.str) (protocol := Sample.calculator_protocol)))
             Sample.gpt4_string_limit Sample.Splitter Sample.Calculator ∅ c
             Hc).
  repeat split.
Defined.

(** ** An override that is [None] *)

Lemma dict_get_None_or_absent (config : gmap string pyval) k k' :
  dict_get (<[k := PyNone]> config) k' = dict_get (delete k config) k'.
Proof.
  destruct (decide (k = k')) as [-> | Hne].
  - apply dict_get_insert_None.
  - by apply dict_get_insert_delete_ne.
Qed.

Lemma key_is_not_MODEL_ID f : key f <> "MODEL_ID".
Proof. by destruct f. Qed.

(** C9. An override key set to [None] is an absent key.  With the key
    mapped to [None] the resolver of the field falls through to the
    external lookup: it returns the default the lookup returns, and fails
    when the lookup fails, with the error of the lookup or with the
    configuration error made of it.  For each of the three keys, the base
    resolution and the embedding resolution give the same result,
    configuration or error, on the settings with the key mapped to [None]
    and on the settings with the key removed, and a configuration returned
    holds the default of the lookup in that field. *)
Theorem None_override_is_absent {tokens : Tokens} {embeddings : Embeddings}
  {str : Str} {S L C : Type} (cls : BaseConfig.class S L C)
  (config : gmap string pyval)
  (text_splitter_class : text_splitter_type S)
  (text_splitter_length_calculator_class : length_calculator_type L)
  (kwargs : gmap string pyval) (f : field) :
  (forall model_id,
     resolve f model_id (dict_get (<[key f := PyNone]> config) (key f)) =
     resolve f model_id (dict_get (delete (key f) config) (key f))) /\
  BaseConfig.from_settings cls (<[key f := PyNone]> config)
    text_splitter_class text_splitter_length_calculator_class kwargs =
  BaseConfig.from_settings cls (delete (key f) config)
    text_splitter_class text_splitter_length_calculator_class kwargs /\
  BaseEmbeddingConfig.from_settings cls (<[key f := PyNone]> config)
    text_splitter_class text_splitter_length_calculator_class kwargs =
  BaseEmbeddingConfig.from_settings cls (delete (key f) config)
    text_splitter_class text_splitter_length_calculator_class kwargs /\
  (forall model_id d,
     default_of f model_id = Return d ->
     resolve f model_id (dict_get (<[key f := PyNone]> config) (key f)) =
       Return d /\
     resolve f model_id (dict_get (delete (key f) config) (key f)) =
       Return d) /\
  (forall model_id e,
     default_of f model_id = Raise e ->
     exists e',
       resolve f model_id (dict_get (<[key f := PyNone]> config) (key f)) =
         Raise e' /\
       resolve f model_id (dict_get (delete (key f) config) (key f)) =
         Raise e' /\
       (e' = e \/
        e' = ImproperlyConfigured (not_configured (key f) model_id) e)) /\
  (forall model_id d c,
     config !! "MODEL_ID" = Some model_id ->
     default_of f model_id = Return d ->
     kwargs !! "embedding_output_dimensions" = None ->
     BaseEmbeddingConfig.from_settings BaseEmbeddingConfig.new
       (<[key f := PyNone]> config) text_splitter_class
       text_splitter_length_calculator_class kwargs = Return c ->
     embedding_field f c = PyInt d).
Proof.
  assert (forall kw,
    BaseConfig.from_settings cls (<[key f := PyNone]> config)
      text_splitter_class text_splitter_length_calculator_class kw =
    BaseConfig.from_settings cls (delete (key f) config)
      text_splitter_class text_splitter_length_calculator_class kw) as Hbase.
  { intros kw. unfold BaseConfig.from_settings.
    rewrite !dict_get_None_or_absent.
    by rewrite (subscript_insert_delete_ne _ _ _ _ (key_is_not_MODEL_ID f)). }
  assert (dict_get (<[key f := PyNone]> config) (key f) = PyNone) as Hnone.
  { unfold dict_get. by rewrite lookup_insert_eq. }
  assert (dict_get (delete (key f) config) (key f) = PyNone) as Habsent.
  { unfold dict_get. by rewrite lookup_delete_eq. }
  split; [|split; [|split; [|split; [|split]]]].
  - intros model_id. by rewrite dict_get_None_or_absent.
  - apply Hbase.
  - unfold BaseEmbeddingConfig.from_settings.
    rewrite !dict_get_None_or_absent.
    rewrite (subscript_insert_delete_ne _ _ _ _ (key_is_not_MODEL_ID f)).
    destruct (subscript (delete (key f) config) "MODEL_ID") as [m|]; [|done].
    cbn [mbind result_bind].
    destruct (BaseEmbeddingConfig.get_embedding_output_dimensions _ _);
      [| done].
    apply Hbase.
  - intros model_id d Hd. rewrite Hnone, Habsent.
    split; by apply resolve_default.
  - intros model_id e He. rewrite Hnone, Habsent.
    destruct (resolve f model_id PyNone) as [n | e'] eqn:Hr.
    + apply resolve_Return in Hr as [[Hv _] | [_ Hd]]; [done | congruence].
    + exists e'. split; [done |]. split; [done |].
      apply resolve_Raise in Hr
        as [[_ Hint] | [(cause & -> & _ & Hd) | [(Hv & _) | [_ Hd]]]];
        [done | | done |].
      * right. congruence.
      * left. congruence.
  - intros model_id d c Hm Hd Hk Hc.
    apply embedding_config_fields in Hc as (m & Hm' & Hfields); [|exact Hk].
    rewrite lookup_insert_ne in Hm' by apply key_is_not_MODEL_ID.
    rewrite Hm in Hm'. injection Hm' as <-.
    destruct (Hfields f) as (n & Hn & ->).
    rewrite Hnone, (resolve_default _ _ _ Hd) in Hn. by injection Hn as ->.
Qed.

(** [{"MODEL_ID": "gpt-4", "TOKEN_LIMIT": None}] resolves to the token limit
    of the lookup, as [{"MODEL_ID": "gpt-4"}] does. *)
Lemma None_override_is_absent_witness :
  default_of (tokens := Sample.tokens) (embeddings := Sample.embeddings)
    TOKEN_LIMIT (PyStr "gpt-4") = Return 8192 /\
  resolve (tokens := Sample.tokens) (embeddings := Sample.embeddings)
    (str := Sample.str) TOKEN_LIMIT (PyStr "gpt-4")
    (dict_get (<["TOKEN_LIMIT" := PyNone]> Sample.gpt4) "TOKEN_LIMIT") =
    Return 8192 /\
  BaseConfig.from_settings (tokens := Sample.tokens) (str := Sample.str)
    BaseConfig.new (<["TOKEN_LIMIT" := PyNone]> Sample.gpt4) Sample.Splitter
    Sample.Calculator ∅ =
    Return (BaseConfig.Build_t _ _ 80 (PyStr "gpt-4") Sample.Splitter
              Sample.Calculator 8192).
Proof.
  destruct (None_override_is_absent (tokens := Sample.tokens)
              (embeddings := Sample.embeddings) (str := Sample.str)
              BaseConfig.new Sample.gpt4 Sample.Splitter Sample.Calculator ∅
              TOKEN_LIMIT) as (_ & Hbase & _ & Hdefault & _).
  split; [reflexivity |]. split.
  - exact (proj1 (Hdefault (PyStr "gpt-4") 8192 eq_refl)).
  - change (<["TOKEN_LIMIT" := PyNone]> Sample.gpt4)
      with (<[key TOKEN_LIMIT := PyNone]> Sample.gpt4).
    rewrite Hbase. vm_compute. reflexivity.
Defined.

(** ** What the coercion step lets through *)

(** [int] of a finite float is its value rounded toward zero: the quotient
    of numerator and denominator that [Z.quot] takes. *)
Lemma int_of_float_truncates s m e :
  Builtins.int_of_float (S754_finite s m e) =
    Return (Z.quot (float_numerator s m e) (float_denominator e)).
Proof.
  unfold Builtins.int_of_float, float_numerator, float_denominator.
  f_equal. destruct (Z.le_gt_cases 0 e) as [He | He].
  - rewrite (Z.max_l e 0), (Z.max_r (- e) 0) by lia.
    rewrite Z.pow_0_r, Z.quot_1_r, Z.shiftl_mul_pow2 by lia.
    destruct s; lia.
  - assert (exists k, 0 < k /\ e = - k) as (k & Hk & ->)
      by (exists (- e); lia).
    rewrite Z.opp_involutive, (Z.max_r (- k) 0), (Z.max_l k 0) by lia.
    rewrite Z.pow_0_r, Z.mul_1_r, Z.shiftl_opp_r, Z.shiftr_div_pow2 by lia.
    assert (0 < 2 ^ k) as Hpos by (apply Z.pow_pos_nonneg; lia).
    destruct s.
    + rewrite Z.quot_opp_l by lia. f_equal.
      symmetry. apply Z.quot_div_nonneg; lia.
    + symmetry. apply Z.quot_div_nonneg; lia.
Qed.

(** C10. The coercion step catches [ValueError] and nothing else.  A float
    override with a fraction is rounded toward zero and the resolver
    returns the integer, so a configuration that [from_settings] returns
    holds it; an override for which [int] raises [TypeError], such as a
    list, makes the resolver raise that [TypeError], and [from_settings]
    raises it when the fields resolved before it did resolve. *)
Theorem coercion_catches_only_ValueError {tokens : Tokens}
  {embeddings : Embeddings} {str : Str} {S L : Type}
  (config : gmap string pyval)
  (text_splitter_class : text_splitter_type S)
  (text_splitter_length_calculator_class : length_calculator_type L)
  (kwargs : gmap string pyval) (model_id : pyval) (f : field) (v : pyval) :
  config !! "MODEL_ID" = Some model_id ->
  config !! key f = Some v ->
  (forall s m e,
     v = PyFloat (S754_finite s m e) ->
     let n := Z.quot (float_numerator s m e) (float_denominator e) in
     resolve f model_id v = Return n /\
     (forall c,
        f <> EMBEDDING_OUTPUT_DIMENSIONS ->
        BaseConfig.from_settings BaseConfig.new config text_splitter_class
          text_splitter_length_calculator_class kwargs = Return c ->
        base_field f c = Some (PyInt n)) /\
     (forall c,
        kwargs !! "embedding_output_dimensions" = None ->
        BaseEmbeddingConfig.from_settings BaseEmbeddingConfig.new config
          text_splitter_class text_splitter_length_calculator_class kwargs =
          Return c ->
        embedding_field f c = PyInt n)) /\
  (is_None v = false ->
   Builtins.int v = Raise TypeError ->
   resolve f model_id v = Raise TypeError /\
   (f <> EMBEDDING_OUTPUT_DIMENSIONS ->
    (forall g, g <> EMBEDDING_OUTPUT_DIMENSIONS -> precedes g f ->
       exists n, resolve g model_id (dict_get config (key g)) = Return n) ->
    BaseConfig.from_settings BaseConfig.new config text_splitter_class
      text_splitter_length_calculator_class kwargs = Raise TypeError) /\
   ((forall g, precedes g f ->
       exists n, resolve g model_id (dict_get config (key g)) = Return n) ->
    BaseEmbeddingConfig.from_settings BaseEmbeddingConfig.new config
      text_splitter_class text_splitter_length_calculator_class kwargs =
      Raise TypeError)).
Proof.
  intros Hm Hv. split.
  - intros s m e -> n.
    assert (Builtins.int (PyFloat (S754_finite s m e)) = Return n) as Hn
      by apply int_of_float_truncates.
    assert (resolve f model_id (PyFloat (S754_finite s m e)) = Return n) as Hr
      by (by apply resolve_override).
    split; [exact Hr | split].
    + intros c Hf Hc.
      apply base_config_fields in Hc as (m' & Hm' & Hfields).
      rewrite Hm in Hm'. injection Hm' as <-.
      destruct (Hfields f Hf) as (n' & Hr' & ->).
      rewrite (dict_get_Some _ _ _ Hv), Hr in Hr'. by injection Hr' as ->.
    + intros c Hk Hc.
      apply embedding_config_fields in Hc as (m' & Hm' & Hfields);
        [|exact Hk].
      rewrite Hm in Hm'. injection Hm' as <-.
      destruct (Hfields f) as (n' & Hr' & ->).
      rewrite (dict_get_Some _ _ _ Hv), Hr in Hr'. by injection Hr' as ->.
  - intros Hnone Hint.
    assert (resolve f model_id v = Raise TypeError) as Hr.
    { rewrite resolve_present by done. by apply coerce_TypeError. }
    split; [exact Hr | split].
    + intros Hf Hbefore.
      apply base_first_failure with (model_id := model_id) (f := f);
        try done.
      by rewrite (dict_get_Some _ _ _ Hv).
    + intros Hbefore.
      apply embedding_first_failure with (model_id := model_id) (f := f);
        try done.
      by rewrite (dict_get_Some _ _ _ Hv).
Qed.

Lemma coercion_catches_only_ValueError_witness :
  (Sample.gpt4_float_limit !! "MODEL_ID" = Some (PyStr "gpt-4") /\
   Sample.gpt4_float_limit !! key TOKEN_LIMIT =
     Some (PyFloat Sample.eight_and_a_half) /\
   Z.quot (float_numerator false 17 (-1)) (float_denominator (-1)) = 8 /\
   resolve (tokens := Sample.tokens) (embeddings := Sample.embeddings)
     (str := Sample.str) TOKEN_LIMIT (PyStr "gpt-4")
     (PyFloat Sample.eight_and_a_half) = Return 8) /\
  (Sample.gpt4_list_limit !! "MODEL_ID" = Some (PyStr "gpt-4") /\
   Sample.gpt4_list_limit !! key TOKEN_LIMIT = Some (PyList []) /\
   is_None (PyList []) = false /\
   Builtins.int (PyList []) = Raise TypeError /\
   BaseConfig.from_settings (tokens := Sample.tokens) (str := Sample.str)
     BaseConfig.new Sample.gpt4_list_limit Sample.Splitter Sample.Calculator
     ∅ = Raise TypeError).
Proof.
  split.
  - split; [reflexivity |]. split; [reflexivity |]. split; [reflexivity |].
    destruct (coercion_catches_only_ValueError (tokens := Sample.tokens)
                (embeddings := Sample.embeddings) (str := Sample.str)
                Sample.gpt4_float_limit Sample.Splitter Sample.Calculator ∅
                (PyStr "gpt-4") TOKEN_LIMIT (PyFloat Sample.eight_and_a_half)
                eq_refl eq_refl) as [Hfloat _].
    destruct (Hfloat false 17%positive (-1) eq_refl) as [Hr _]. exact Hr.
  - split; [reflexivity |]. split; [reflexivity |]. split; [reflexivity |].
    split; [reflexivity |].
    destruct (coercion_catches_only_ValueError (tokens := Sample.tokens)
                (embeddings := Sample.embeddings) (str := Sample.str)
                Sample.gpt4_list_limit Sample.Splitter Sample.Calculator ∅
                (PyStr "gpt-4") TOKEN_LIMIT (PyList [])
                eq_refl eq_refl) as [_ Hlist].
    destruct (Hlist eq_refl eq_refl) as (_ & Hbase & _).
    apply Hbase; [discriminate |].
    intros g Hg Hbefore. destruct g; [| | done]; unfold precedes in Hbefore;
      simpl in Hbefore; lia.
Defined.

(** * Further properties of the resolution *)

(** ** A settings mapping without [MODEL_ID] *)

(** X1. [config["MODEL_ID"]] is evaluated before anything else: without the
    key, both resolutions raise [KeyError("MODEL_ID")], whatever the other
    keys hold, whatever the class and the keywords. *)
Theorem missing_model_id_is_a_KeyError {tokens : Tokens}
  {embeddings : Embeddings} {str : Str} {S L C : Type}
  (cls : BaseConfig.class S L C) (config : gmap string pyval)
  (text_splitter_class : text_splitter_type S)
  (text_splitter_length_calculator_class : length_calculator_type L)
  (kwargs : gmap string pyval) :
  config !! "MODEL_ID" = None ->
  BaseConfig.from_settings cls config text_splitter_class
    text_splitter_length_calculator_class kwargs =
    Raise (KeyError "MODEL_ID") /\
  BaseEmbeddingConfig.from_settings cls config text_splitter_class
    text_splitter_length_calculator_class kwargs =
    Raise (KeyError "MODEL_ID").
Proof.
  intros Hm. split.
  - by apply base_from_settings_KeyError.
  - by apply embedding_from_settings_KeyError.
Qed.

(** A list for [TOKEN_LIMIT] and a keyword no class accepts: the missing
    [MODEL_ID] is what is reported. *)
Lemma missing_model_id_is_a_KeyError_witness :
  (<["TOKEN_LIMIT" := PyList []]> ∅ : gmap string pyval) !! "MODEL_ID" = None /\
  BaseEmbeddingConfig.from_settings (tokens := Sample.tokens)
    (embeddings := Sample.embeddings) (str := Sample.str)
    BaseEmbeddingConfig.new (<["TOKEN_LIMIT" := PyList []]> ∅)
    Sample.Splitter Sample.Calculator (<["unknown" := PyNone]> ∅) =
    Raise (KeyError "MODEL_ID").
Proof.
  split; [reflexivity |].
  apply (missing_model_id_is_a_KeyError (tokens := Sample.tokens)
           (embeddings := Sample.embeddings) (str := Sample.str)
           BaseEmbeddingConfig.new (<["TOKEN_LIMIT" := PyList []]> ∅)
           Sample.Splitter Sample.Calculator (<["unknown" := PyNone]> ∅)).
  reflexivity.
Defined.

(** ** Keywords of the caller *)

Lemma setdefault_lookup (kwargs : gmap string pyval) k v :
  setdefault kwargs k v !! k = Some (default v (kwargs !! k)).
Proof.
  unfold setdefault. destruct (kwargs !! k) as [w|] eqn:Hk; simpl.
  - exact Hk.
  - apply lookup_insert_eq.
Qed.

Lemma dom_setdefault (kwargs : gmap string pyval) k v :
  dom (setdefault kwargs k v) = {[k]} ∪ dom kwargs.
Proof.
  unfold setdefault. destruct (kwargs !! k) as [w|] eqn:Hk.
  - assert (k ∈ dom kwargs) as Hin by (apply elem_of_dom; eauto).
    apply set_eq. intros x. rewrite elem_of_union, elem_of_singleton.
    split; [auto | by intros [-> |]].
  - apply dom_insert_L.
Qed.

Lemma new_Return_iff {S L : Type} chunk_overlap_characters model_id
  (text_splitter_class : text_splitter_type S)
  (text_splitter_length_calculator_class : length_calculator_type L)
  token_limit kwargs c :
  BaseConfig.new chunk_overlap_characters model_id text_splitter_class
    text_splitter_length_calculator_class token_limit kwargs = Return c <->
  kwargs = ∅ /\
  c = BaseConfig.Build_t S L chunk_overlap_characters model_id
        text_splitter_class text_splitter_length_calculator_class token_limit.
Proof.
  unfold BaseConfig.new. case_bool_decide as Hdom.
  - apply dom_empty_iff_L in Hdom. split.
    + by intros [= <-].
    + by intros [_ ->].
  - split; [done |]. intros [-> _]. by rewrite dom_empty_L in Hdom.
Qed.


Lemma embedding_new_Return_iff {S L : Type} chunk_overlap_characters model_id
  (text_splitter_class : text_splitter_type S)
  (text_splitter_length_calculator_class : length_calculator_type L)
  token_limit kwargs c :
  BaseEmbeddingConfig.new chunk_overlap_characters model_id
    text_splitter_class text_splitter_length_calculator_class token_limit
    kwargs = Return c <->
  exists v,
    kwargs !! "embedding_output_dimensions" = Some v /\
    dom kwargs = {["embedding_output_dimensions"]} /\
    c = BaseEmbeddingConfig.Build_t S L
          (BaseConfig.Build_t S L chunk_overlap_characters model_id
             text_splitter_class text_splitter_length_calculator_class
             token_limit) v.
Proof.
  unfold BaseEmbeddingConfig.new.
  destruct (kwargs !! "embedding_output_dimensions") as [w|].
  - case_bool_decide as Hdom.
    + split.
      * intros [= <-]. by exists w.
      * by intros (v & [= <-] & _ & ->).
    + split; [done |]. by intros (v & _ & Hd & _).
  - split; [done |]. by intros (v & Hv & _).
Qed.

(** X2. A keyword [embedding_output_dimensions] of the caller wins over the
    settings: [setdefault] keeps it and the configuration holds it as it
    is, not coerced.  The settings are resolved all the same, and an error
    of theirs is raised although the resolved dimensions are not used. *)
Theorem caller_keyword_takes_precedence {tokens : Tokens}
  {embeddings : Embeddings} {str : Str} {S L : Type}
  (config : gmap string pyval)
  (text_splitter_class : text_splitter_type S)
  (text_splitter_length_calculator_class : length_calculator_type L)
  (model_id v : pyval) :
  config !! "MODEL_ID" = Some model_id ->
  let resolved f := resolve f model_id (dict_get config (key f)) in
  BaseEmbeddingConfig.from_settings BaseEmbeddingConfig.new config
    text_splitter_class text_splitter_length_calculator_class
    {["embedding_output_dimensions" := v]} =
    match resolved EMBEDDING_OUTPUT_DIMENSIONS, resolved TOKEN_LIMIT,
          resolved CHUNK_OVERLAP_CHARACTERS with
    | Return _, Return token_limit, Return chunk_overlap_characters =>
        Return (BaseEmbeddingConfig.Build_t S L
                  (BaseConfig.Build_t S L chunk_overlap_characters model_id
                     text_splitter_class
                     text_splitter_length_calculator_class token_limit)
                  v)
    | Raise e, _, _ => Raise e
    | Return _, Raise e, _ => Raise e
    | Return _, Return _, Raise e => Raise e
    end.
Proof.
  intros Hm resolved.
  rewrite (embedding_from_settings_eq _ _ _ _ _ _ Hm).
  fold (resolved EMBEDDING_OUTPUT_DIMENSIONS).
  destruct (resolved EMBEDDING_OUTPUT_DIMENSIONS) as [d | e]; [|done].
  cbn [mbind result_bind].
  rewrite (setdefault_present _ _ _ v) by apply lookup_singleton_eq.
  rewrite (base_from_settings_eq _ _ _ _ _ _ Hm).
  fold (resolved TOKEN_LIMIT). fold (resolved CHUNK_OVERLAP_CHARACTERS).
  destruct (resolved TOKEN_LIMIT) as [tl | e]; [|done].
  destruct (resolved CHUNK_OVERLAP_CHARACTERS) as [co | e]; [|done].
  cbn [mbind result_bind].
  apply embedding_new_Return_iff. exists v.
  split; [apply lookup_singleton_eq |]. split; [apply dom_singleton_L | done].
Qed.

(** The settings say 1536, the caller passes the string ["7"]: the
    configuration holds the string.  With no default for the model and no
    override, the settings still fail. *)
Lemma caller_keyword_takes_precedence_witness :
  Sample.embed_1536 !! "MODEL_ID" = Some (PyStr "text-embed-1") /\
  BaseEmbeddingConfig.from_settings (tokens := Sample.tokens)
    (embeddings := Sample.embeddings) (str := Sample.str)
    BaseEmbeddingConfig.new Sample.embed_1536 Sample.Splitter
    Sample.Calculator {["embedding_output_dimensions" := PyStr "7"]} =
    Return (BaseEmbeddingConfig.Build_t _ _
              (BaseConfig.Build_t _ _ 80 (PyStr "text-embed-1")
                 Sample.Splitter Sample.Calculator 8191)
              (PyStr "7")) /\
  Sample.gpt4 !! "MODEL_ID" = Some (PyStr "gpt-4") /\
  BaseEmbeddingConfig.from_settings (tokens := Sample.tokens)
    (embeddings := Sample.embeddings) (str := Sample.str)
    BaseEmbeddingConfig.new Sample.gpt4 Sample.Splitter
    Sample.Calculator {["embedding_output_dimensions" := PyInt 7]} =
    Raise (ImproperlyConfigured
             (not_configured (str := Sample.str)
                "EMBEDDING_OUTPUT_DIMENSIONS" (PyStr "gpt-4"))
             EmbeddingOutputDimensionsNotFound).
Proof.
  split; [reflexivity |]. split.
  - rewrite (caller_keyword_takes_precedence (tokens := Sample.tokens)
               (embeddings := Sample.embeddings) (str := Sample.str)
               Sample.embed_1536 Sample.Splitter Sample.Calculator
               (PyStr "text-embed-1") (PyStr "7") eq_refl).
    reflexivity.
  - split; [reflexivity |].
    rewrite (caller_keyword_takes_precedence (tokens := Sample.tokens)
               (embeddings := Sample.embeddings) (str := Sample.str)
               Sample.gpt4 Sample.Splitter Sample.Calculator
               (PyStr "gpt-4") (PyInt 7) eq_refl).
    reflexivity.
Defined.

(** X3. When [from_settings] returns.  The base resolution returns a
    configuration exactly when [MODEL_ID] is there, the token limit and the
    chunk overlap resolve and the caller passes no keyword; the embedding
    resolution exactly when, besides, the output dimensions resolve and the
    caller passes no keyword other than [embedding_output_dimensions].
    The configuration is then made of the resolved values. *)
Theorem from_settings_returns_iff {tokens : Tokens}
  {embeddings : Embeddings} {str : Str} {S L : Type}
  (config : gmap string pyval)
  (text_splitter_class : text_splitter_type S)
  (text_splitter_length_calculator_class : length_calculator_type L)
  (kwargs : gmap string pyval) :
  (forall c,
     BaseConfig.from_settings BaseConfig.new config text_splitter_class
       text_splitter_length_calculator_class kwargs = Return c <->
     exists model_id token_limit chunk_overlap_characters,
       config !! "MODEL_ID" = Some model_id /\
       resolve TOKEN_LIMIT model_id (dict_get config (key TOKEN_LIMIT)) =
         Return token_limit /\
       resolve CHUNK_OVERLAP_CHARACTERS model_id
         (dict_get config (key CHUNK_OVERLAP_CHARACTERS)) =
         Return chunk_overlap_characters /\
       kwargs = ∅ /\
       c = BaseConfig.Build_t S L chunk_overlap_characters model_id
             text_splitter_class text_splitter_length_calculator_class
             token_limit) /\
  (forall c,
     BaseEmbeddingConfig.from_settings BaseEmbeddingConfig.new config
       text_splitter_class text_splitter_length_calculator_class kwargs =
       Return c <->
     exists model_id dimensions token_limit chunk_overlap_characters,
       config !! "MODEL_ID" = Some model_id /\
       resolve EMBEDDING_OUTPUT_DIMENSIONS model_id
         (dict_get config (key EMBEDDING_OUTPUT_DIMENSIONS)) =
         Return dimensions /\
       resolve TOKEN_LIMIT model_id (dict_get config (key TOKEN_LIMIT)) =
         Return token_limit /\
       resolve CHUNK_OVERLAP_CHARACTERS model_id
         (dict_get config (key CHUNK_OVERLAP_CHARACTERS)) =
         Return chunk_overlap_characters /\
       dom kwargs ⊆ {["embedding_output_dimensions"]} /\
       c = BaseEmbeddingConfig.Build_t S L
             (BaseConfig.Build_t S L chunk_overlap_characters model_id
                text_splitter_class text_splitter_length_calculator_class
                token_limit)
             (default (PyInt dimensions)
                (kwargs !! "embedding_output_dimensions"))).
Proof.
  split.
  - intros c. split.
    + intros Hc.
      apply base_from_settings_Return in Hc
        as (m & tl & co & Hm & Htl & Hco & Hc).
      apply new_Return_iff in Hc as [-> ->]. by exists m, tl, co.
    + intros (m & tl & co & Hm & Htl & Hco & -> & ->).
      rewrite (base_from_settings_eq _ _ _ _ _ _ Hm), Htl, Hco.
      reflexivity.
  - intros c. split.
    + intros Hc.
      apply embedding_from_settings_Return in Hc
        as (m & d & tl & co & Hm & Hd & Htl & Hco & Hc).
      apply embedding_new_Return_iff in Hc as (v & Hv & Hdom & ->).
      rewrite setdefault_lookup in Hv. injection Hv as <-.
      rewrite dom_setdefault in Hdom.
      exists m, d, tl, co. repeat (split; [done |]). split; [|done].
      intros x Hx. rewrite <- Hdom. by apply elem_of_union_r.
    + intros (m & d & tl & co & Hm & Hd & Htl & Hco & Hdom & ->).
      rewrite (embedding_from_settings_eq _ _ _ _ _ _ Hm), Hd.
      cbn [mbind result_bind].
      rewrite (base_from_settings_eq _ _ _ _ _ _ Hm), Htl, Hco.
      cbn [mbind result_bind].
      apply embedding_new_Return_iff. eexists.
      split; [apply setdefault_lookup |]. split; [|done].
      rewrite dom_setdefault, (comm_L (∪)). by apply subseteq_union_1_L.
Qed.

(** A keyword makes the base resolution fail where it returns without. *)
Lemma from_settings_returns_iff_witness :
  ~ (exists c,
       BaseConfig.from_settings (tokens := Sample.tokens) (str := Sample.str)
         BaseConfig.new Sample.gpt4 Sample.Splitter Sample.Calculator
         {["embedding_output_dimensions" := PyInt 7]} = Return c) /\
  BaseConfig.from_settings (tokens := Sample.tokens) (str := Sample.str)
    BaseConfig.new Sample.gpt4 Sample.Splitter Sample.Calculator ∅ =
    Return (BaseConfig.Build_t _ _ 80 (PyStr "gpt-4") Sample.Splitter
              Sample.Calculator 8192).
Proof.
  pose proof (from_settings_returns_iff (tokens := Sample.tokens)
                (embeddings := Sample.embeddings) (str := Sample.str)
                Sample.gpt4 Sample.Splitter Sample.Calculator) as Hiff.
  split.
  - intros [c Hc].
    apply (proj1 (Hiff _)) in Hc as (m & tl & co & _ & _ & _ & Hk & _).
    apply (f_equal (fun kw => kw !! "embedding_output_dimensions")) in Hk.
    discriminate Hk.
  - apply (proj1 (Hiff ∅)). exists (PyStr "gpt-4"), 8192, 80.
    repeat split.
Defined.

(** ** Errors come before the constructor *)

(** X4. When the resolver of a field fails, [from_settings] fails with one
    and the same error for every class and every set of keywords: the
    constructor is not reached, and a keyword the class would refuse goes
    unnoticed. *)
Theorem resolver_failure_precedes_constructor {tokens : Tokens}
  {embeddings : Embeddings} {str : Str} {S L : Type}
  (config : gmap string pyval)
  (text_splitter_class : text_splitter_type S)
  (text_splitter_length_calculator_class : length_calculator_type L)
  (model_id : pyval) (f : field) (e : exception) :
  config !! "MODEL_ID" = Some model_id ->
  resolve f model_id (dict_get config (key f)) = Raise e ->
  (f <> EMBEDDING_OUTPUT_DIMENSIONS ->
   exists e',
     forall (C : Type) (cls : BaseConfig.class S L C) kwargs,
       BaseConfig.from_settings cls config text_splitter_class
         text_splitter_length_calculator_class kwargs = Raise e') /\
  (exists e',
     forall (C : Type) (cls : BaseConfig.class S L C) kwargs,
       BaseEmbeddingConfig.from_settings cls config text_splitter_class
         text_splitter_length_calculator_class kwargs = Raise e').
Proof.
  intros Hm He.
  assert (f <> EMBEDDING_OUTPUT_DIMENSIONS ->
          exists e',
            forall (C : Type) (cls : BaseConfig.class S L C) kwargs,
              BaseConfig.from_settings cls config text_splitter_class
                text_splitter_length_calculator_class kwargs = Raise e')
    as Hbase.
  { intros Hf.
    destruct (resolve TOKEN_LIMIT model_id (dict_get config (key TOKEN_LIMIT)))
      as [tl | e1] eqn:Htl.
    - exists e. intros C cls kwargs.
      rewrite (base_from_settings_eq _ _ _ _ _ _ Hm), Htl.
      destruct f; [congruence | by rewrite He | done].
    - exists e1. intros C cls kwargs.
      by rewrite (base_from_settings_eq _ _ _ _ _ _ Hm), Htl. }
  split; [exact Hbase |].
  destruct (resolve EMBEDDING_OUTPUT_DIMENSIONS model_id
              (dict_get config (key EMBEDDING_OUTPUT_DIMENSIONS)))
    as [d | e0] eqn:Hd.
  - destruct Hbase as [e' He']; [intros -> ; congruence |].
    exists e'. intros C cls kwargs.
    rewrite (embedding_from_settings_eq _ _ _ _ _ _ Hm), Hd. apply He'.
  - exists e0. intros C cls kwargs.
    by rewrite (embedding_from_settings_eq _ _ _ _ _ _ Hm), Hd.
Qed.

(** A string that is no numeral for [TOKEN_LIMIT]: the same configuration
    error with a keyword [BaseConfig] refuses and with a class that lacks
    its [embedding_output_dimensions]. *)
Lemma resolver_failure_precedes_constructor_witness :
  let e := ImproperlyConfigured (not_an_int "TOKEN_LIMIT" (PyStr "abc"))
             ValueError in
  Sample.gpt4_bad_limit !! "MODEL_ID" = Some (PyStr "gpt-4") /\
  resolve (tokens := Sample.tokens) (embeddings := Sample.embeddings)
    (str := Sample.str) TOKEN_LIMIT (PyStr "gpt-4")
    (dict_get Sample.gpt4_bad_limit (key TOKEN_LIMIT)) = Raise e /\
  BaseConfig.from_settings (tokens := Sample.tokens) (str := Sample.str)
    BaseConfig.new Sample.gpt4_bad_limit Sample.Splitter Sample.Calculator
    {["unknown" := PyNone]} = Raise e /\
  BaseConfig.from_settings (tokens := Sample.tokens) (str := Sample.str)
    BaseEmbeddingConfig.new Sample.gpt4_bad_limit Sample.Splitter
    Sample.Calculator ∅ = Raise e.
Proof.
  intros e. split; [reflexivity |]. split; [reflexivity |].
  destruct (proj1 (resolver_failure_precedes_constructor
                     (tokens := Sample.tokens)
                     (embeddings := Sample.embeddings) (str := Sample.str)
                     Sample.gpt4_bad_limit Sample.Splitter Sample.Calculator
                     (PyStr "gpt-4") TOKEN_LIMIT e eq_refl eq_refl))
    as [e' He']; [discriminate |].
  assert (e' = e) as ->.
  { pose proof (He' _ BaseConfig.new ∅) as H0.
    vm_compute in H0. by injection H0 as <-. }
  split; apply He'.
Defined.

(** ** What the resolution reads *)

(** X5. The base resolution reads three keys of the settings, [MODEL_ID],
    [TOKEN_LIMIT] and [CHUNK_OVERLAP_CHARACTERS], and the embedding
    resolution [EMBEDDING_OUTPUT_DIMENSIONS] besides: two settings mappings
    that agree on them give the same result, whatever else they hold.  For
    the base resolution that includes [EMBEDDING_OUTPUT_DIMENSIONS]. *)
Theorem unrelated_keys_are_ignored {tokens : Tokens}
  {embeddings : Embeddings} {str : Str} {S L C : Type}
  (cls : BaseConfig.class S L C) (config config' : gmap string pyval)
  (text_splitter_class : text_splitter_type S)
  (text_splitter_length_calculator_class : length_calculator_type L)
  (kwargs : gmap string pyval) :
  config !! "MODEL_ID" = config' !! "MODEL_ID" ->
  config !! "TOKEN_LIMIT" = config' !! "TOKEN_LIMIT" ->
  config !! "CHUNK_OVERLAP_CHARACTERS" =
    config' !! "CHUNK_OVERLAP_CHARACTERS" ->
  BaseConfig.from_settings cls config text_splitter_class
    text_splitter_length_calculator_class kwargs =
  BaseConfig.from_settings cls config' text_splitter_class
    text_splitter_length_calculator_class kwargs /\
  (config !! "EMBEDDING_OUTPUT_DIMENSIONS" =
     config' !! "EMBEDDING_OUTPUT_DIMENSIONS" ->
   BaseEmbeddingConfig.from_settings cls config text_splitter_class
     text_splitter_length_calculator_class kwargs =
   BaseEmbeddingConfig.from_settings cls config' text_splitter_class
     text_splitter_length_calculator_class kwargs).
Proof.
  intros Hm Htl Hco.
  assert (forall kw,
    BaseConfig.from_settings cls config text_splitter_class
      text_splitter_length_calculator_class kw =
    BaseConfig.from_settings cls config' text_splitter_class
      text_splitter_length_calculator_class kw) as Hbase.
  { intros kw. unfold BaseConfig.from_settings, subscript, dict_get.
    by rewrite Hm, Htl, Hco. }
  split; [apply Hbase |].
  intros Hd. unfold BaseEmbeddingConfig.from_settings, subscript, dict_get.
  rewrite Hm, Hd.
  destruct (config' !! "MODEL_ID") as [m|]; [|done].
  cbn [mbind result_bind].
  destruct (BaseEmbeddingConfig.get_embedding_output_dimensions _ _);
    [| done].
  apply Hbase.
Qed.

(** A list under [EMBEDDING_OUTPUT_DIMENSIONS] and a key the code does not
    know leave the base resolution as it is. *)
Lemma unrelated_keys_are_ignored_witness :
  let config' : gmap string pyval :=
    <["EMBEDDING_OUTPUT_DIMENSIONS" := PyList []]>
      (<["TEMPERATURE" := PyInt 1]> Sample.gpt4_string_limit) in
  Sample.gpt4_string_limit !! "MODEL_ID" = config' !! "MODEL_ID" /\
  Sample.gpt4_string_limit !! "TOKEN_LIMIT" = config' !! "TOKEN_LIMIT" /\
  Sample.gpt4_string_limit !! "CHUNK_OVERLAP_CHARACTERS" =
    config' !! "CHUNK_OVERLAP_CHARACTERS" /\
  BaseConfig.from_settings (tokens := Sample.tokens) (str := Sample.str)
    BaseConfig.new config' Sample.Splitter Sample.Calculator ∅ =
    Return (BaseConfig.Build_t _ _ 80 (PyStr "gpt-4") Sample.Splitter
              Sample.Calculator 8000).
Proof.
  intros config'.
  split; [reflexivity |]. split; [reflexivity |]. split; [reflexivity |].
  rewrite <- (proj1 (unrelated_keys_are_ignored (tokens := Sample.tokens)
                      (embeddings := Sample.embeddings) (str := Sample.str)
                      BaseConfig.new Sample.gpt4_string_limit config'
                      Sample.Splitter Sample.Calculator ∅
                      eq_refl eq_refl eq_refl)).
  vm_compute. reflexivity.
Defined.

(** X6. An override that is not [None] keeps the lookups out: the resolver
    gives the same result, value or error, for every model id and whatever
    [tokens], [embeddings] and the rendering of the model id are; with all
    the overrides of a resolution present, so does [from_settings]. *)
Theorem overrides_bypass_lookups (tokens tokens' : Tokens)
  (embeddings embeddings' : Embeddings) (str str' : Str) {S L C : Type}
  (cls : BaseConfig.class S L C) (config : gmap string pyval)
  (text_splitter_class : text_splitter_type S)
  (text_splitter_length_calculator_class : length_calculator_type L)
  (kwargs : gmap string pyval) :
  (forall f model_id model_id' v,
     is_None v = false ->
     resolve (tokens := tokens) (embeddings := embeddings) (str := str)
       f model_id v =
     resolve (tokens := tokens') (embeddings := embeddings') (str := str')
       f model_id' v) /\
  (is_None (dict_get config "TOKEN_LIMIT") = false ->
   is_None (dict_get config "CHUNK_OVERLAP_CHARACTERS") = false ->
   BaseConfig.from_settings (tokens := tokens) (str := str) cls config
     text_splitter_class text_splitter_length_calculator_class kwargs =
   BaseConfig.from_settings (tokens := tokens') (str := str') cls config
     text_splitter_class text_splitter_length_calculator_class kwargs) /\
  (is_None (dict_get config "TOKEN_LIMIT") = false ->
   is_None (dict_get config "CHUNK_OVERLAP_CHARACTERS") = false ->
   is_None (dict_get config "EMBEDDING_OUTPUT_DIMENSIONS") = false ->
   BaseEmbeddingConfig.from_settings (tokens := tokens)
     (embeddings := embeddings) (str := str) cls config
     text_splitter_class text_splitter_length_calculator_class kwargs =
   BaseEmbeddingConfig.from_settings (tokens := tokens')
     (embeddings := embeddings') (str := str') cls config
     text_splitter_class text_splitter_length_calculator_class kwargs).
Proof.
  assert (forall f model_id model_id' v,
    is_None v = false ->
    resolve (tokens := tokens) (embeddings := embeddings) (str := str)
      f model_id v =
    resolve (tokens := tokens') (embeddings := embeddings') (str := str')
      f model_id' v) as Hresolve.
  { intros f m m' v Hv. by rewrite !resolve_present. }
  assert (forall kw,
    is_None (dict_get config "TOKEN_LIMIT") = false ->
    is_None (dict_get config "CHUNK_OVERLAP_CHARACTERS") = false ->
    BaseConfig.from_settings (tokens := tokens) (str := str) cls config
      text_splitter_class text_splitter_length_calculator_class kw =
    BaseConfig.from_settings (tokens := tokens') (str := str') cls config
      text_splitter_class text_splitter_length_calculator_class kw)
    as Hbase.
  { intros kw Htl Hco.
    destruct (config !! "MODEL_ID") as [m|] eqn:Hm.
    - rewrite (base_from_settings_eq (tokens := tokens)
                 (embeddings := embeddings) (str := str) _ _ _ _ _ _ Hm).
      rewrite (base_from_settings_eq (tokens := tokens')
                 (embeddings := embeddings') (str := str') _ _ _ _ _ _ Hm).
      cbn [key].
      by rewrite (Hresolve TOKEN_LIMIT m m _ Htl),
        (Hresolve CHUNK_OVERLAP_CHARACTERS m m _ Hco).
    - by rewrite !base_from_settings_KeyError. }
  split; [exact Hresolve |]. split; [apply Hbase |].
  intros Htl Hco Hd.
  destruct (config !! "MODEL_ID") as [m|] eqn:Hm.
  - rewrite (embedding_from_settings_eq (tokens := tokens)
               (embeddings := embeddings) (str := str) _ _ _ _ _ _ Hm).
    rewrite (embedding_from_settings_eq (tokens := tokens')
               (embeddings := embeddings') (str := str') _ _ _ _ _ _ Hm).
    cbn [key]. rewrite (Hresolve EMBEDDING_OUTPUT_DIMENSIONS m m _ Hd).
    destruct (resolve _ _ _) as [d | e]; [|done].
    cbn [mbind result_bind]. by apply Hbase.
  - by rewrite !embedding_from_settings_KeyError.
Qed.

Lemma overrides_bypass_lookups_witness :
  is_None (PyStr "abc") = false /\
  resolve (tokens := Sample.tokens) (embeddings := Sample.embeddings)
    (str := Sample.str) TOKEN_LIMIT (PyStr "gpt-4") (PyStr "abc") =
  resolve (tokens := Sample.no_tokens) (embeddings := Sample.no_embeddings)
    (str := fun _ => EmptyString) TOKEN_LIMIT (PyStr "unknown-model")
    (PyStr "abc").
Proof.
  split; [reflexivity |].
  apply (proj1 (overrides_bypass_lookups Sample.tokens Sample.no_tokens
                  Sample.embeddings Sample.no_embeddings Sample.str
                  (fun _ => EmptyString) BaseConfig.new Sample.gpt4
                  Sample.Splitter Sample.Calculator ∅)).
  reflexivity.
Defined.

(** X7. Integer overrides are taken as they are.  With [MODEL_ID] and
    integers under the override keys, the resolution returns the
    configuration made of them, for any integers (negative, zero, an
    overlap above the limit) and whatever the lookups hold. *)
Theorem integer_overrides_are_not_validated {tokens : Tokens}
  {embeddings : Embeddings} {str : Str} {S L : Type}
  (config : gmap string pyval)
  (text_splitter_class : text_splitter_type S)
  (text_splitter_length_calculator_class : length_calculator_type L)
  (model_id : pyval) (token_limit chunk_overlap_characters : Z) :
  config !! "MODEL_ID" = Some model_id ->
  config !! "TOKEN_LIMIT" = Some (PyInt token_limit) ->
  config !! "CHUNK_OVERLAP_CHARACTERS" =
    Some (PyInt chunk_overlap_characters) ->
  BaseConfig.from_settings BaseConfig.new config text_splitter_class
    text_splitter_length_calculator_class ∅ =
    Return (BaseConfig.Build_t S L chunk_overlap_characters model_id
              text_splitter_class text_splitter_length_calculator_class
              token_limit) /\
  (forall dimensions,
     config !! "EMBEDDING_OUTPUT_DIMENSIONS" = Some (PyInt dimensions) ->
     BaseEmbeddingConfig.from_settings BaseEmbeddingConfig.new config
       text_splitter_class text_splitter_length_calculator_class ∅ =
       Return (BaseEmbeddingConfig.Build_t S L
                 (BaseConfig.Build_t S L chunk_overlap_characters model_id
                    text_splitter_class
                    text_splitter_length_calculator_class token_limit)
                 (PyInt dimensions))).
Proof.
  intros Hm Htl Hco.
  assert (forall (C : Type) (cls : BaseConfig.class S L C) kw,
    BaseConfig.from_settings cls config text_splitter_class
      text_splitter_length_calculator_class kw =
    cls chunk_overlap_characters model_id text_splitter_class
      text_splitter_length_calculator_class token_limit kw) as Hbase.
  { intros C cls kw. rewrite (base_from_settings_eq _ _ _ _ _ _ Hm).
    cbn [key].
    by rewrite (dict_get_Some _ _ _ Htl), (dict_get_Some _ _ _ Hco). }
  split; [by rewrite Hbase |].
  intros d Hd.
  rewrite (embedding_from_settings_eq _ _ _ _ _ _ Hm). cbn [key].
  rewrite (dict_get_Some _ _ _ Hd).
  change (resolve EMBEDDING_OUTPUT_DIMENSIONS model_id (PyInt d))
    with (Return (A := Z) d).
  cbn [mbind result_bind]. rewrite Hbase. apply embedding_new_dimensions.
Qed.

(** A negative token limit and a chunk overlap above it, for a model the
    lookups do not know. *)
Lemma integer_overrides_are_not_validated_witness :
  let config : gmap string pyval :=
    <["MODEL_ID" := PyStr "unknown-model"]>
      (<["TOKEN_LIMIT" := PyInt (-5)]>
         (<["CHUNK_OVERLAP_CHARACTERS" := PyInt 10]> ∅)) in
  config !! "MODEL_ID" = Some (PyStr "unknown-model") /\
  config !! "TOKEN_LIMIT" = Some (PyInt (-5)) /\
  config !! "CHUNK_OVERLAP_CHARACTERS" = Some (PyInt 10) /\
  BaseConfig.from_settings (tokens := Sample.no_tokens) (str := Sample.str)
    BaseConfig.new config Sample.Splitter Sample.Calculator ∅ =
    Return (BaseConfig.Build_t _ _ 10 (PyStr "unknown-model")
              Sample.Splitter Sample.Calculator (-5)).
Proof.
  intros config.
  split; [reflexivity |]. split; [reflexivity |]. split; [reflexivity |].
  apply (integer_overrides_are_not_validated (tokens := Sample.no_tokens)
           (embeddings := Sample.no_embeddings) (str := Sample.str)
           config Sample.Splitter Sample.Calculator (PyStr "unknown-model")
           (-5) 10); reflexivity.
Defined.

(** ** Floats that are no numbers *)

(** X8. A NaN under an override key is reported like a string that is no
    numeral: [int] raises [ValueError], and the resolver raises the
    configuration error, which names the field and the type [float].  An
    infinity is not: [int] raises [OverflowError], which the resolver does
    not catch, so the resolution fails with [OverflowError] and no
    configuration error. *)
Theorem nonfinite_float_override {tokens : Tokens}
  {embeddings : Embeddings} {str : Str} {S L C : Type}
  (cls : BaseConfig.class S L C) (config : gmap string pyval)
  (text_splitter_class : text_splitter_type S)
  (text_splitter_length_calculator_class : length_calculator_type L)
  (kwargs : gmap string pyval) (model_id : pyval) (fl : spec_float) :
  config !! "MODEL_ID" = Some model_id ->
  config !! "TOKEN_LIMIT" = Some (PyFloat fl) ->
  (fl = S754_nan ->
   (forall f m,
      resolve f m (PyFloat fl) =
        Raise (ImproperlyConfigured (not_an_int (key f) (PyFloat fl))
                 ValueError)) /\
   BaseConfig.from_settings cls config text_splitter_class
     text_splitter_length_calculator_class kwargs =
     Raise (ImproperlyConfigured (not_an_int "TOKEN_LIMIT" (PyFloat fl))
              ValueError) /\
   contains "float" (not_an_int "TOKEN_LIMIT" (PyFloat fl)) = true) /\
  (forall s,
     fl = S754_infinity s ->
     (forall f m, resolve f m (PyFloat fl) = Raise OverflowError) /\
     BaseConfig.from_settings cls config text_splitter_class
       text_splitter_length_calculator_class kwargs = Raise OverflowError).
Proof.
  intros Hm Hv.
  assert (forall e,
    resolve TOKEN_LIMIT model_id (PyFloat fl) = Raise e ->
    BaseConfig.from_settings cls config text_splitter_class
      text_splitter_length_calculator_class kwargs = Raise e) as Hbase.
  { intros e He. rewrite (base_from_settings_eq _ _ _ _ _ _ Hm). cbn [key].
    rewrite (dict_get_Some _ _ _ Hv). by rewrite He. }
  split.
  - intros ->.
    assert (forall f m,
      resolve f m (PyFloat S754_nan) =
        Raise (ImproperlyConfigured (not_an_int (key f) (PyFloat S754_nan))
                 ValueError)) as Hr.
    { intros f m. rewrite resolve_present by done.
      by apply coerce_ValueError. }
    split; [exact Hr |]. split; [apply Hbase, (Hr TOKEN_LIMIT) | reflexivity].
  - intros s ->.
    assert (forall f m,
      resolve f m (PyFloat (S754_infinity s)) = Raise OverflowError) as Hr.
    { intros f m. by rewrite resolve_present. }
    split; [exact Hr | apply Hbase, Hr].
Qed.

Lemma nonfinite_float_override_witness :
  let config : gmap string pyval :=
    <["MODEL_ID" := PyStr "gpt-4"]>
      (<["TOKEN_LIMIT" := PyFloat (S754_infinity false)]> ∅) in
  config !! "MODEL_ID" = Some (PyStr "gpt-4") /\
  config !! "TOKEN_LIMIT" = Some (PyFloat (S754_infinity false)) /\
  BaseConfig.from_settings (tokens := Sample.tokens) (str := Sample.str)
    BaseConfig.new config Sample.Splitter Sample.Calculator ∅ =
    Raise OverflowError.
Proof.
  intros config. split; [reflexivity |]. split; [reflexivity |].
  destruct (nonfinite_float_override (tokens := Sample.tokens)
              (embeddings := Sample.embeddings) (str := Sample.str)
              BaseConfig.new config Sample.Splitter Sample.Calculator ∅
              (PyStr "gpt-4") (S754_infinity false) eq_refl eq_refl)
    as [_ Hinf].
  exact (proj2 (Hinf false eq_refl)).
Defined.

(** ** The embedding backend *)

(** X9. The [embedding_output_dimensions] of an embedding backend built on
    a configuration that [from_settings] returned: the keyword of the
    caller when there is one, the dimensions resolved from the settings
    otherwise. *)
Theorem backend_dimensions_from_settings {tokens : Tokens}
  {embeddings : Embeddings} {str : Str} {S L : Type}
  (config : gmap string pyval)
  (text_splitter_class : text_splitter_type S)
  (text_splitter_length_calculator_class : length_calculator_type L)
  (kwargs : gmap string pyval) (c : BaseEmbeddingConfig.t S L) :
  BaseEmbeddingConfig.from_settings BaseEmbeddingConfig.new config
    text_splitter_class text_splitter_length_calculator_class kwargs =
    Return c ->
  exists model_id dimensions,
    config !! "MODEL_ID" = Some model_id /\
    resolve EMBEDDING_OUTPUT_DIMENSIONS model_id
      (dict_get config (key EMBEDDING_OUTPUT_DIMENSIONS)) =
      Return dimensions /\
    BaseEmbeddingBackend.embedding_output_dimensions
      {| BaseBackend.config := c |} =
      default (PyInt dimensions) (kwargs !! "embedding_output_dimensions").
Proof.
  intros Hc.
  apply embedding_from_settings_Return in Hc
    as (m & d & tl & co & Hm & Hd & _ & _ & Hc).
  apply embedding_new_Return_iff in Hc as (v & Hv & _ & ->).
  rewrite setdefault_lookup in Hv. injection Hv as <-.
  by exists m, d.
Qed.

(** The example of the specification:
    [{"MODEL_ID": "text-embed-1", "EMBEDDING_OUTPUT_DIMENSIONS": 1536}]. *)
Lemma backend_dimensions_from_settings_witness :
  let c :=
    BaseEmbeddingConfig.Build_t _ _
      (BaseConfig.Build_t _ _ 80 (PyStr "text-embed-1") Sample.Splitter
         Sample.Calculator 8191)
      (PyInt 1536) in
  BaseEmbeddingConfig.from_settings (tokens := Sample.tokens)
    (embeddings := Sample.no_embeddings) (str := Sample.str)
    BaseEmbeddingConfig.new Sample.embed_1536 Sample.Splitter
    Sample.Calculator ∅ = Return c /\
  BaseEmbeddingBackend.embedding_output_dimensions
    {| BaseBackend.config := c |} = PyInt 1536.
Proof.
  intros c.
  assert (BaseEmbeddingConfig.from_settings (tokens := Sample.tokens)
            (embeddings := Sample.no_embeddings) (str := Sample.str)
            BaseEmbeddingConfig.new Sample.embed_1536 Sample.Splitter
            Sample.Calculator ∅ = Return c) as Hc
    by (vm_compute; reflexivity).
  split; [exact Hc |].
  destruct (backend_dimensions_from_settings (tokens := Sample.tokens)
              (embeddings := Sample.no_embeddings) (str := Sample.str)
              Sample.embed_1536 Sample.Splitter Sample.Calculator ∅ c Hc)
    as (m & d & Hm & Hd & ->).
  injection Hm as <-. vm_compute in Hd. injection Hd as <-. reflexivity.
Defined.

(** ** Telling the errors apart *)

(** X10. The message of a configuration error tells the field and the
    kind of failure: the messages of two fields differ, whatever the value
    or the model, and a message for a failed coercion is never one for a
    missing default. *)
Theorem messages_identify_field {str : Str} (f g : field) :
  (f <> g ->
   (forall v w, not_an_int (key f) v <> not_an_int (key g) w) /\
   (forall m m', not_configured (key f) m <> not_configured (key g) m')) /\
  (forall v m, not_an_int (key f) v <> not_configured (key g) m).
Proof.
  split.
  - intros Hfg. split.
    + intros v w H. destruct f, g; try done; vm_compute in H; discriminate.
    + intros m m' H. destruct f, g; try done; vm_compute in H; discriminate.
  - intros v m H. destruct f, g; vm_compute in H; discriminate.
Qed.

Lemma messages_identify_field_witness :
  TOKEN_LIMIT <> CHUNK_OVERLAP_CHARACTERS /\
  not_an_int "TOKEN_LIMIT" (PyStr "abc") <>
    not_an_int "CHUNK_OVERLAP_CHARACTERS" (PyStr "abc").
Proof.
  split; [discriminate |].
  apply (proj1 (proj1 (messages_identify_field (str := Sample.str)
                         TOKEN_LIMIT CHUNK_OVERLAP_CHARACTERS)
                  ltac:(discriminate))).
Defined.

(** ** Where a resolved value comes from *)

(** X11. Every integer in a configuration that [from_settings] returns
    is either [int] of the override under the key of the field, when the
    settings hold one that is not [None], or else what the external lookup
    returned for the [MODEL_ID] of the settings; and the model id and the
    two classes of the configuration are the ones given. *)
Theorem resolved_value_provenance {tokens : Tokens}
  {embeddings : Embeddings} {str : Str} {S L : Type}
  (config : gmap string pyval)
  (text_splitter_class : text_splitter_type S)
  (text_splitter_length_calculator_class : length_calculator_type L)
  (kwargs : gmap string pyval) (c : BaseEmbeddingConfig.t S L) :
  kwargs !! "embedding_output_dimensions" = None ->
  BaseEmbeddingConfig.from_settings BaseEmbeddingConfig.new config
    text_splitter_class text_splitter_length_calculator_class kwargs =
    Return c ->
  config !! "MODEL_ID" =
    Some (BaseConfig.model_id (BaseEmbeddingConfig.base c)) /\
  BaseConfig.text_splitter_class (BaseEmbeddingConfig.base c) =
    text_splitter_class /\
  BaseConfig.text_splitter_length_calculator_class
    (BaseEmbeddingConfig.base c) = text_splitter_length_calculator_class /\
  forall f, exists n,
    embedding_field f c = PyInt n /\
    let v := dict_get config (key f) in
    (is_None v = false /\ Builtins.int v = Return n) \/
    (is_None v = true /\
     default_of f (BaseConfig.model_id (BaseEmbeddingConfig.base c)) =
       Return n).
Proof.
  intros Hk Hc.
  pose proof (embedding_config_fields _ _ _ _ _ Hk Hc) as (m & Hm & Hfields).
  apply embedding_from_settings_Return in Hc
    as (m' & d & tl & co & Hm' & _ & _ & _ & Hc).
  rewrite Hm in Hm'. injection Hm' as <-.
  apply embedding_new_Return in Hc as [Hbase _]. rewrite Hbase. simpl.
  split; [exact Hm |]. split; [done |]. split; [done |].
  intros f. destruct (Hfields f) as (n & Hr & Hf).
  exists n. split; [exact Hf |]. by apply resolve_Return in Hr.
Qed.

Lemma resolved_value_provenance_witness :
  let c :=
    BaseEmbeddingConfig.Build_t _ _
      (BaseConfig.Build_t _ _ 80 (PyStr "text-embed-1") Sample.Splitter
         Sample.Calculator 8191)
      (PyInt 1536) in
  (∅ : gmap string pyval) !! "embedding_output_dimensions" = None /\
  BaseEmbeddingConfig.from_settings (tokens := Sample.tokens)
    (embeddings := Sample.no_embeddings) (str := Sample.str)
    BaseEmbeddingConfig.new Sample.embed_1536 Sample.Splitter
    Sample.Calculator ∅ = Return c /\
  Sample.embed_1536 !! "MODEL_ID" = Some (PyStr "text-embed-1").
Proof.
  intros c. split; [reflexivity |].
  assert (BaseEmbeddingConfig.from_settings (tokens := Sample.tokens)
            (embeddings := Sample.no_embeddings) (str := Sample.str)
            BaseEmbeddingConfig.new Sample.embed_1536 Sample.Splitter
            Sample.Calculator ∅ = Return c) as Hc
    by (vm_compute; reflexivity).
  split; [exact Hc |].
  exact (proj1 (resolved_value_provenance (tokens := Sample.tokens)
                  (embeddings := Sample.no_embeddings) (str := Sample.str)
                  Sample.embed_1536 Sample.Splitter Sample.Calculator ∅ c
                  eq_refl Hc)).
Defined.

(** ** The errors of a resolution *)


